(** * MandelbrotGL: the host program of [src/main.cpp]

    A shallow embedding of the C++ host side of the Mandelbrot viewer:
    the [GLobject] owning handle, the four resource factories, the key
    handling of the view state, the render loop and [main].

    Conventions of the embedding.
    - [GLuint], [GLint], [GLenum], [unsigned] and scancodes are [Z]; the one
      place where the program does arithmetic on a machine integer
      ([++max_iterations], [--max_iterations]) has its wrap-around written
      out ([wrap32]).
    - [float]/[GLfloat] is IEEE-754 binary32, through the Standard Library's
      [SpecFloat] at precision 24 and maximal exponent 128; every operator
      of the source is one correctly rounded operation (no contraction, no
      excess precision).
    - OpenGL and SDL are outside the program.  Every call the program makes
      is appended to a trace of [api_call]s; what the library answers
      (generated names, compile and link status, the polled events, ...) is
      read from an [environment].
    - C++ exceptions are an outcome of the computation monad [M]; objects
      with automatic storage run their destructor when their scope is left,
      normally or by an exception ([scoped], [returned_local]).
    - [return local;] of a [GLobject] is taken as constructing the local
      directly in the caller's object (copy elision), which is what the
      compilers the program is built with do. *)

From Stdlib Require Import ZArith List String Lia Bool.
From Stdlib Require Import Floats.SpecFloat.
From stdpp Require Import base option gmap strings.
Import ListNotations.
Local Open Scope string_scope.
Local Open Scope list_scope.
Local Open Scope Z_scope.

(** ** Machine numbers *)

Definition GLuint := Z.
Definition GLint := Z.
Definition GLenum := Z.

Definition wrap32 (n : Z) : Z := n mod 2 ^ 32.

Module Float32.
Definition prec : Z := 24.
Definition emax : Z := 128.

Definition float := spec_float.

Definition add : float -> float -> float := SFadd prec emax.
Definition sub : float -> float -> float := SFsub prec emax.
Definition mul : float -> float -> float := SFmul prec emax.
Definition div : float -> float -> float := SFdiv prec emax.

(** An integer constant converted to [float] (round to nearest even). *)
Definition of_Z (n : Z) : float := binary_normalize prec emax n 0 false.

(** The literals of the source. *)
Definition zero : float := S754_zero false.                    (* 0.0F *)
Definition one : float := S754_finite false 8388608 (-23).     (* 1.0F *)
Definition m_one : float := S754_finite true 8388608 (-23).    (* -1.0F *)
Definition m_two : float := S754_finite true 8388608 (-22).    (* -2.0F *)
Definition tenth : float := S754_finite false 13421773 (-27).  (* 0.1F *)

Definition valid (x : float) : bool := valid_binary prec emax x.
End Float32.

Abbreviation float := Float32.float.

(** ** Constants of the OpenGL and SDL headers *)

Definition GL_FALSE : Z := 0.
Definition GL_TRUE : Z := 1.
Definition GL_TRIANGLES : GLenum := 4.
Definition GL_FLOAT : GLenum := 5126.
Definition GL_COLOR_BUFFER_BIT : Z := 16384.
Definition GL_ARRAY_BUFFER : GLenum := 34962.
Definition GL_STATIC_DRAW : GLenum := 35044.
Definition GL_FRAGMENT_SHADER : GLenum := 35632.
Definition GL_VERTEX_SHADER : GLenum := 35633.
Definition GL_COMPILE_STATUS : GLenum := 35713.
Definition GL_LINK_STATUS : GLenum := 35714.

Definition SDL_Scancode := Z.
Definition SDL_SCANCODE_A : SDL_Scancode := 4.
Definition SDL_SCANCODE_D : SDL_Scancode := 7.
Definition SDL_SCANCODE_E : SDL_Scancode := 8.
Definition SDL_SCANCODE_R : SDL_Scancode := 21.
Definition SDL_SCANCODE_S : SDL_Scancode := 22.
Definition SDL_SCANCODE_W : SDL_Scancode := 26.
Definition SDL_SCANCODE_X : SDL_Scancode := 27.
Definition SDL_SCANCODE_Z : SDL_Scancode := 29.

Definition WINDOW_WIDTH : Z := 800.
Definition WINDOW_HEIGHT : Z := 600.

Inductive SDL_GLattr :=
| SDL_GL_CONTEXT_PROFILE_MASK
| SDL_GL_CONTEXT_MAJOR_VERSION
| SDL_GL_CONTEXT_MINOR_VERSION
| SDL_GL_DOUBLEBUFFER.

Definition SDL_GL_CONTEXT_PROFILE_CORE : Z := 1.

(** [SDL_Event] as the loop reads it: the [type] tag, and the scancode of a
    key-down event.  Every other event type is [OtherEvent]. *)
Inductive SDL_Event :=
| SDL_KEYDOWN (scancode : SDL_Scancode)
| SDL_QUIT
| OtherEvent (type : Z).

(** ** The calls the program makes, in the order it makes them *)

Inductive api_call :=
| glGenBuffers (n : Z) (out : GLuint)
| glDeleteBuffers (n : Z) (buffer : GLuint)
| glBindBuffer (target : GLenum) (buffer : GLuint)
| glBufferData (target : GLenum) (size : Z) (data : list float) (usage : GLenum)
| glGenVertexArrays (n : Z) (out : GLuint)
| glDeleteVertexArrays (n : Z) (array : GLuint)
| glBindVertexArray (array : GLuint)
| glVertexAttribPointer (index : GLuint) (size : Z) (type : GLenum)
                        (normalized : Z) (stride : Z) (pointer : Z)
| glEnableVertexAttribArray (index : GLuint)
| glCreateShader (type : GLenum) (out : GLuint)
| glDeleteShader (shader : GLuint)
| glShaderSource (shader : GLuint) (count : Z) (source : string)
| glCompileShader (shader : GLuint)
| glGetShaderiv (shader : GLuint) (pname : GLenum) (out : GLint)
| glCreateProgram (out : GLuint)
| glDeleteProgram (program : GLuint)
| glAttachShader (program shader : GLuint)
| glDetachShader (program shader : GLuint)
| glLinkProgram (program : GLuint)
| glGetProgramiv (program : GLuint) (pname : GLenum) (out : GLint)
| glUseProgram (program : GLuint)
| glUniform1f (location : Z) (v0 : float)
| glUniform2f (location : Z) (v0 v1 : float)
| glUniform1ui (location : Z) (v0 : GLuint)
| glClear (mask : Z)
| glDrawArrays (mode : GLenum) (first count : Z)
| glewInit
| SDL_Init (out : Z)
| SDL_GL_SetAttribute (attr : SDL_GLattr) (value : Z)
| SDL_CreateWindow (title : string) (w h : Z) (out : bool)
| SDL_GL_CreateContext (out : bool)
| SDL_PollEvent (out : option SDL_Event)
| SDL_GL_SwapWindow
| SDL_Delay (ms : Z)
| SDL_GL_DeleteContext
| SDL_DestroyWindow
| SDL_Quit.

Definition trace := list api_call.

(** ** Computations: a trace of calls, and C++ exceptions *)

Inductive exception :=
| runtime_error (what_arg : string)
| bad_function_call.

Definition what (e : exception) : string :=
  match e with
  | runtime_error s => s
  | bad_function_call => "bad_function_call"
  end.

(** How a computation ends: with a value, by a thrown exception that is
    still propagating, in [std::terminate], or (the render loop only) with
    the supplied input used up while the loop is still running. *)
Inductive outcome (A : Type) :=
| Normal (a : A)
| Thrown (e : exception)
| Terminated
| OutOfInput.
Arguments Normal {A} a.
Arguments Thrown {A} e.
Arguments Terminated {A}.
Arguments OutOfInput {A}.

Definition M (A : Type) : Type := (outcome A * trace)%type.

Definition ret {A} (a : A) : M A := (Normal a, []).

Definition bind {A B} (m : M A) (k : A -> M B) : M B :=
  match m with
  | (Normal a, t) => let (r, t') := k a in (r, t ++ t')
  | (Thrown e, t) => (Thrown e, t)
  | (Terminated, t) => (Terminated, t)
  | (OutOfInput, t) => (OutOfInput, t)
  end.

Definition throw {A} (e : exception) : M A := (Thrown e, []).

Definition call (c : api_call) : M unit := (Normal tt, [c]).

Declare Scope cpp_scope.
Delimit Scope cpp_scope with cpp.
Notation "x <- m ;; k" := (bind m (fun x => k))
  (at level 100, m at next level, right associativity) : cpp_scope.
Notation "m ;; k" := (bind m (fun _ => k))
  (at level 100, right associativity) : cpp_scope.
Local Open Scope cpp_scope.

(** A [noexcept] function: an exception that leaves it ends the program. *)
Definition noexcept {A} (m : M A) : M A :=
  match m with
  | (Thrown _, t) => (Terminated, t)
  | r => r
  end.

(** ** [class GLobject] *)

(** The callables the program stores in a [deleter_type]: its four
    lambdas. *)
Inductive callable :=
| delete_buffer          (* [](GLuint buffer){::glDeleteBuffers(1, &buffer);} *)
| delete_vertex_array    (* [](GLuint vao){::glDeleteVertexArrays(1, &vao);} *)
| delete_shader          (* [](GLuint shader){::glDeleteShader(shader);} *)
| delete_program.        (* [](GLuint program){::glDeleteProgram(program);} *)

Definition release_call (f : callable) (i : GLuint) : api_call :=
  match f with
  | delete_buffer => glDeleteBuffers 1 i
  | delete_vertex_array => glDeleteVertexArrays 1 i
  | delete_shader => glDeleteShader i
  | delete_program => glDeleteProgram i
  end.

(** [std::function<void(GLuint)>]: empty, or holding a target. *)
Definition deleter_type := option callable.

(** [std::function::operator()]: an empty function throws. *)
Definition invoke (d : deleter_type) (i : GLuint) : M unit :=
  match d with
  | Some f => call (release_call f i)
  | None => throw bad_function_call
  end.

Record GLobject := mkGLobject { index : GLuint; deleter : deleter_type }.

(** [GLobject(GLuint index, deleter_type deleter)] *)
Definition GLobject_new (i : GLuint) (d : deleter_type) : GLobject :=
  {| index := i; deleter := d |}.

(** [~GLobject() {deleter(index);}]; a destructor is [noexcept]. *)
Definition destroy (o : GLobject) : M unit :=
  noexcept (invoke (deleter o) (index o)).

(** [operator GLuint() const noexcept] *)
Definition to_GLuint (o : GLobject) : GLuint := index o.

(** The end of a scope that holds the local object [o], reached with the
    result [r] of the scope's body: the destructor runs whether the scope
    is left normally or by an exception; nothing runs once the program has
    ended. *)
Definition leave_scope {A} (o : GLobject) (r : M A) : M A :=
  match r with
  | (Normal a, t) =>
      match destroy o with
      | (Normal _, t') => (Normal a, t ++ t')
      | (_, t') => (Terminated, t ++ t')
      end
  | (Thrown e, t) =>
      match destroy o with
      | (Normal _, t') => (Thrown e, t ++ t')
      | (_, t') => (Terminated, t ++ t')
      end
  | r => r
  end.

(** A local object: [body] runs in its scope. *)
Definition scoped {A} (o : GLobject) (body : M A) : M A := leave_scope o body.

(** A local object that the function returns ([return o;], elided): the
    caller owns it on a normal return; an exception out of [body] unwinds
    it like any other local. *)
Definition returned_local (o : GLobject) (body : M unit) : M GLobject :=
  match body with
  | (Normal _, t) => (Normal o, t)
  | (Thrown e, t) => leave_scope o (Thrown e, t)
  | (Terminated, t) => (Terminated, t)
  | (OutOfInput, t) => (OutOfInput, t)
  end.

(** *** Moves, on objects in store *)

(** The standard leaves a [std::function] that was moved from "in a valid
    state with an unspecified value".  What the library at hand leaves is a
    parameter: [after_move_construct d] for the source [d] of the move
    constructor, [after_move_assign old d] for the source [d] of a move
    assignment to a function that held [old]. *)
Record function_library := {
  after_move_construct : deleter_type -> deleter_type;
  after_move_assign : deleter_type -> deleter_type -> deleter_type
}.

(** libstdc++, libc++ and the MSVC library leave the source empty. *)
Definition emptying : function_library :=
  {| after_move_construct := fun _ => None;
     after_move_assign := fun _ _ => None |}.

(** A library may as well leave the target in place (a copy). *)
Definition retaining : function_library :=
  {| after_move_construct := fun d => d;
     after_move_assign := fun _ d => d |}.

Definition address := nat.

Section Moves.
Variable lib : function_library.

(** [GLobject(GLobject&& globject) noexcept], constructing at [this]. *)
Definition move_construct (this globject : address)
    (objs : gmap address GLobject) : option (gmap address GLobject) :=
  match objs !! globject with
  | Some g =>
      (* : index{globject.index}, deleter{std::move(globject.deleter)} *)
      let objs1 := <[this := {| index := index g; deleter := deleter g |}]> objs in
      let objs2 :=
        <[globject := {| index := index g;
                         deleter := after_move_construct lib (deleter g) |}]> objs1 in
      (* globject.index = 0; *)
      Some (alter (fun o => {| index := 0; deleter := deleter o |}) globject objs2)
  | None => None
  end.

(** [GLobject& operator=(GLobject&& globject) noexcept] of the object at
    [this]. *)
Definition move_assign (this globject : address)
    (objs : gmap address GLobject) : option (gmap address GLobject) :=
  if decide (this = globject) then Some objs
  else
    match objs !! this, objs !! globject with
    | Some a, Some g =>
        (* index = globject.index; *)
        let objs1 := <[this := {| index := index g; deleter := deleter a |}]> objs in
        (* deleter = std::move(globject.deleter); *)
        let objs2 := <[this := {| index := index g; deleter := deleter g |}]> objs1 in
        Some (<[globject := {| index := index g;
                               deleter := after_move_assign lib (deleter a) (deleter g) |}]>
                objs2)
    | _, _ => None
    end.

End Moves.

(** The destructors of the objects at [ps], in that order. *)
Fixpoint destroy_all (ps : list address) (objs : gmap address GLobject) : M unit :=
  match ps with
  | [] => ret tt
  | p :: ps' =>
      match objs !! p with
      | Some o => destroy o ;; destroy_all ps' objs
      | None => destroy_all ps' objs
      end
  end.

(** ** What OpenGL, SDL and the file system answer *)

Record environment := {
  init_result : Z;                        (* SDL_Init *)
  window : bool;                          (* SDL_CreateWindow: not null *)
  gl_context : bool;                      (* SDL_GL_CreateContext: not null *)
  error_text : string;                    (* SDL_GetError *)
  files : gmap string string;             (* the readable files *)
  gen_buffer : GLuint;                    (* glGenBuffers: the name written *)
  gen_vertex_array : GLuint;              (* glGenVertexArrays *)
  created_shader : GLenum -> GLuint;      (* glCreateShader *)
  compile_status : GLuint -> string -> GLint;
    (* GL_COMPILE_STATUS of a shader, by the string [create_shader] was given *)
  created_program : GLuint;               (* glCreateProgram *)
  link_status : GLint;
  events : list (list SDL_Event)
    (* the events SDL_PollEvent hands out, grouped by loop iteration *)
}.

(** ** The resource factories *)

(** [std::string::c_str()] as a reader of C strings sees it: the characters
    before the first NUL.  ([read_file] opens the file in binary mode and
    keeps every byte, so a source may hold one.) *)
Fixpoint c_str (s : string) : string :=
  match s with
  | EmptyString => EmptyString
  | String c s' =>
      if Ascii.eqb c Ascii.zero then EmptyString else String c (c_str s')
  end.

Fixpoint has_nul (s : string) : bool :=
  match s with
  | EmptyString => false
  | String c s' => Ascii.eqb c Ascii.zero || has_nul s'
  end.

Definition rectangle_data : list float :=
  let m1 := Float32.m_one in
  let p1 := Float32.one in
  let z := Float32.zero in
  [ m1; m1; z;
    p1; m1; z;
    p1; p1; z;
    p1; p1; z;
    m1; p1; z;
    m1; m1; z ].

Definition sizeof_GLfloat : Z := 4.

Section Factories.
Variable env : environment.

Definition create_rectangle_buffer : M GLobject :=
  name <- (let buffer := gen_buffer env in
           call (glGenBuffers 1 buffer) ;;
           if buffer =? 0 then throw (runtime_error "buffer generation error")
           else ret buffer) ;;
  let buffer := GLobject_new name (Some delete_buffer) in
  returned_local buffer
    (call (glBindBuffer GL_ARRAY_BUFFER (to_GLuint buffer)) ;;
     call (glBufferData GL_ARRAY_BUFFER
             (sizeof_GLfloat * Z.of_nat (length rectangle_data))
             rectangle_data GL_STATIC_DRAW) ;;
     call (glBindBuffer GL_ARRAY_BUFFER 0)).

Definition create_rectangle_vertex_array_object (rectangle_buffer : GLobject)
    : M GLobject :=
  name <- (let vertex_array_object := gen_vertex_array env in
           call (glGenVertexArrays 1 vertex_array_object) ;;
           if vertex_array_object =? 0
           then throw (runtime_error "vertex array object generation error")
           else ret vertex_array_object) ;;
  let vertex_array_object := GLobject_new name (Some delete_vertex_array) in
  returned_local vertex_array_object
    (call (glBindVertexArray (to_GLuint vertex_array_object)) ;;
     call (glBindBuffer GL_ARRAY_BUFFER (to_GLuint rectangle_buffer)) ;;
     call (glVertexAttribPointer 0 3 GL_FLOAT GL_FALSE (3 * sizeof_GLfloat) 0) ;;
     call (glEnableVertexAttribArray 0) ;;
     call (glBindBuffer GL_ARRAY_BUFFER 0) ;;
     call (glBindVertexArray 0)).

Definition create_shader (source : string) (shader_type : GLenum) : M GLobject :=
  name <- (let shader := created_shader env shader_type in
           call (glCreateShader shader_type shader) ;;
           if shader =? 0 then throw (runtime_error "shader creation error")
           else ret shader) ;;
  let shader := GLobject_new name (Some delete_shader) in
  returned_local shader
    ((* the length argument is [nullptr]: OpenGL reads the C string *)
     let source_cstr := c_str source in
     call (glShaderSource (to_GLuint shader) 1 source_cstr) ;;
     call (glCompileShader (to_GLuint shader)) ;;
     let status := compile_status env (to_GLuint shader) source in
     call (glGetShaderiv (to_GLuint shader) GL_COMPILE_STATUS status) ;;
     if status =? GL_FALSE then throw (runtime_error "shader compilation error")
     else ret tt).

Definition create_shader_program (vertex_shader_source fragment_shader_source : string)
    : M GLobject :=
  name <- (let shader_program := created_program env in
           call (glCreateProgram shader_program) ;;
           if shader_program =? 0
           then throw (runtime_error "shader program creation error")
           else ret shader_program) ;;
  let shader_program := GLobject_new name (Some delete_program) in
  returned_local shader_program
    (vertex_shader <- create_shader vertex_shader_source GL_VERTEX_SHADER ;;
     scoped vertex_shader
       (fragment_shader <- create_shader fragment_shader_source GL_FRAGMENT_SHADER ;;
        scoped fragment_shader
          (call (glAttachShader (to_GLuint shader_program) (to_GLuint vertex_shader)) ;;
           call (glAttachShader (to_GLuint shader_program) (to_GLuint fragment_shader)) ;;
           call (glLinkProgram (to_GLuint shader_program)) ;;
           let status := link_status env in
           call (glGetProgramiv (to_GLuint shader_program) GL_LINK_STATUS status) ;;
           if status =? GL_FALSE
           then throw (runtime_error "failed to link shader program")
           else
             call (glDetachShader (to_GLuint shader_program) (to_GLuint vertex_shader)) ;;
             call (glDetachShader (to_GLuint shader_program)
                     (to_GLuint fragment_shader))))).

Definition read_file (file_path : string) : M string :=
  match files env !! file_path with
  | Some contents => ret contents
  | None => throw (runtime_error "file reading error")
  end.
End Factories.

(** ** The view state and the keys *)

Record view := mkView {
  max_iterations : Z;    (* unsigned *)
  scale : float;
  x : float;
  y : float
}.

Definition initial_view : view :=
  {| max_iterations := 30; scale := Float32.one;
     x := Float32.zero; y := Float32.zero |}.

(** The body of [case SDL_KEYDOWN]. *)
Definition key_down (scancode : SDL_Scancode) (v : view) : view :=
  let move_delta := Float32.div Float32.tenth (scale v) in
  let y' :=
    if scancode =? SDL_SCANCODE_W then Float32.add (y v) move_delta
    else if scancode =? SDL_SCANCODE_S then Float32.sub (y v) move_delta
    else y v in
  let x' :=
    if scancode =? SDL_SCANCODE_A then Float32.sub (x v) move_delta
    else if scancode =? SDL_SCANCODE_D then Float32.add (x v) move_delta
    else x v in
  let scale' :=
    if scancode =? SDL_SCANCODE_Z
    then Float32.add (scale v) (Float32.mul Float32.tenth (scale v))
    else if scancode =? SDL_SCANCODE_X
    then Float32.sub (scale v) (Float32.mul Float32.tenth (scale v))
    else scale v in
  let max_iterations' :=
    if scancode =? SDL_SCANCODE_R then wrap32 (max_iterations v + 1)
    else if scancode =? SDL_SCANCODE_E
    then (if max_iterations v >? 0 then wrap32 (max_iterations v - 1)
          else max_iterations v)
    else max_iterations v in
  {| max_iterations := max_iterations'; scale := scale'; x := x'; y := y' |}.

(** The view after a sequence of key-down events. *)
Definition key_downs (scancodes : list SDL_Scancode) (v : view) : view :=
  fold_left (fun v scancode => key_down scancode v) scancodes v.

(** The two [glUniform2f] argument pairs: locations 2 (horizontal bounds)
    and 3 (vertical bounds). *)
Definition horizontal_bounds (v : view) : float * float :=
  (Float32.add (Float32.div Float32.m_two (scale v)) (x v),
   Float32.add (Float32.div Float32.one (scale v)) (x v)).

Definition vertical_bounds (v : view) : float * float :=
  (Float32.add (Float32.div Float32.m_one (scale v)) (y v),
   Float32.add (Float32.div Float32.one (scale v)) (y v)).

(** ** The render loop *)

Record loop_state := { the_view : view; running : bool }.

(** The [switch (event.type)]. *)
Definition handle_event (event : SDL_Event) (s : loop_state) : loop_state :=
  match event with
  | SDL_KEYDOWN scancode =>
      {| the_view := key_down scancode (the_view s); running := running s |}
  | SDL_QUIT => {| the_view := the_view s; running := false |}
  | OtherEvent _ => s
  end.

(** [while (::SDL_PollEvent(&event)) ...], with [pending] in the queue. *)
Fixpoint poll_events (pending : list SDL_Event) (s : loop_state) : M loop_state :=
  match pending with
  | [] => call (SDL_PollEvent None) ;; ret s
  | event :: pending' =>
      call (SDL_PollEvent (Some event)) ;;
      poll_events pending' (handle_event event s)
  end.

(** From [glUseProgram(shader_program)] to [glUseProgram(0)]. *)
Definition draw (shader_program vertex_array_object : GLuint) (v : view) : M unit :=
  call (glUseProgram shader_program) ;;
  call (glUniform1f 0 (Float32.of_Z WINDOW_WIDTH)) ;;
  call (glUniform1f 1 (Float32.of_Z WINDOW_HEIGHT)) ;;
  call (glUniform2f 2 (fst (horizontal_bounds v)) (snd (horizontal_bounds v))) ;;
  call (glUniform2f 3 (fst (vertical_bounds v)) (snd (vertical_bounds v))) ;;
  call (glUniform1ui 4 (max_iterations v)) ;;
  call (glClear GL_COLOR_BUFFER_BIT) ;;
  call (glBindVertexArray vertex_array_object) ;;
  call (glDrawArrays GL_TRIANGLES 0 6) ;;
  call (glBindVertexArray 0) ;;
  call (glUseProgram 0).

(** One run of the body of [while (running)]. *)
Definition iteration (shader_program vertex_array_object : GLuint)
    (pending : list SDL_Event) (s : loop_state) : M loop_state :=
  s' <- poll_events pending s ;;
  draw shader_program vertex_array_object (the_view s') ;;
  call SDL_GL_SwapWindow ;;
  call (SDL_Delay 30) ;;
  ret s'.

(** [while (running) ...]: [frames] holds, for each iteration to come, the
    events that are pending when it polls. *)
Fixpoint run_loop (shader_program vertex_array_object : GLuint)
    (frames : list (list SDL_Event)) (s : loop_state) : M loop_state :=
  if running s then
    match frames with
    | [] => (OutOfInput, [])
    | pending :: frames' =>
        s' <- iteration shader_program vertex_array_object pending s ;;
        run_loop shader_program vertex_array_object frames' s'
    end
  else ret s.

(** ** [main] *)

Definition try_block (env : environment) : M unit :=
  rectangle_buffer <- create_rectangle_buffer env ;;
  scoped rectangle_buffer
    (rectangle_vertex_array_object <-
       create_rectangle_vertex_array_object env rectangle_buffer ;;
     scoped rectangle_vertex_array_object
       (vertex_shader_source <- read_file env "res/mandelbrot_shader.vs" ;;
        fragment_shader_source <- read_file env "res/mandelbrot_shader.fs" ;;
        shader_program <-
          create_shader_program env vertex_shader_source fragment_shader_source ;;
        scoped shader_program
          (run_loop (to_GLuint shader_program)
             (to_GLuint rectangle_vertex_array_object) (events env)
             {| the_view := initial_view; running := true |} ;;
           ret tt))).

(** How the process ends. *)
Inductive ending :=
| Exit (code : Z)        (* [main] returned [code] *)
| Abort                  (* [std::terminate] *)
| AwaitingInput.         (* still in the loop when [events] ran out *)

Record run := { ended : ending; stderr : list string; calls : trace }.

Definition main (env : environment) : run :=
  let init := [SDL_Init (init_result env)] in
  if init_result env >=? 0 then
    let create_window :=
      init ++ [SDL_GL_SetAttribute SDL_GL_CONTEXT_PROFILE_MASK SDL_GL_CONTEXT_PROFILE_CORE;
               SDL_GL_SetAttribute SDL_GL_CONTEXT_MAJOR_VERSION 4;
               SDL_GL_SetAttribute SDL_GL_CONTEXT_MINOR_VERSION 5;
               SDL_GL_SetAttribute SDL_GL_DOUBLEBUFFER 1;
               SDL_CreateWindow "MandelbrotGL" WINDOW_WIDTH WINDOW_HEIGHT (window env)] in
    if window env then
      let create_context := create_window ++ [SDL_GL_CreateContext (gl_context env)] in
      if gl_context env then
        let shutdown := [SDL_GL_DeleteContext; SDL_DestroyWindow; SDL_Quit] in
        match try_block env with
        | (Normal _, t) =>
            {| ended := Exit 0; stderr := [];
               calls := create_context ++ [glewInit] ++ t ++ shutdown |}
        | (Thrown ex, t) =>
            {| ended := Exit 0; stderr := [what ex];
               calls := create_context ++ [glewInit] ++ t ++ shutdown |}
        | (Terminated, t) =>
            {| ended := Abort; stderr := [];
               calls := create_context ++ [glewInit] ++ t |}
        | (OutOfInput, t) =>
            {| ended := AwaitingInput; stderr := [];
               calls := create_context ++ [glewInit] ++ t |}
        end
      else
        {| ended := Exit 0;
           stderr := [String.append "SDL_GLContext creation error: " (error_text env)];
           calls := create_context ++ [SDL_DestroyWindow; SDL_Quit] |}
    else
      {| ended := Exit 0;
         stderr := [String.append "SDL_Window creation error: " (error_text env)];
         calls := create_window ++ [SDL_Quit] |}
  else
    {| ended := Exit 0;
       stderr := [String.append "SDL2 initialization error: " (error_text env)];
       calls := init |}.

(** ** Observations on states and traces *)

Definition unsigned_range (n : Z) : Prop := 0 <= n < 2 ^ 32.

(** An interval [lo / scale + offset, hi / scale + offset]. *)
Definition bounds_with_offset (lo hi scale offset : float) : float * float :=
  (Float32.add (Float32.div lo scale) offset,
   Float32.add (Float32.div hi scale) offset).

Definition is_glUniform2f (c : api_call) : bool :=
  match c with glUniform2f _ _ _ => true | _ => false end.

(** Does the call hand [i] to one of the release functions? *)
Definition is_release_of (i : GLuint) (c : api_call) : bool :=
  match c with
  | glDeleteBuffers _ name
  | glDeleteVertexArrays _ name
  | glDeleteShader name
  | glDeleteProgram name => name =? i
  | _ => false
  end.

Definition releases_of (i : GLuint) (t : trace) : nat :=
  length (List.filter (is_release_of i) t).

(** A resource: its name, with the callable that releases it. *)
Definition resource : Type := callable * GLuint.

Definition callable_eqb (f g : callable) : bool :=
  match f, g with
  | delete_buffer, delete_buffer
  | delete_vertex_array, delete_vertex_array
  | delete_shader, delete_shader
  | delete_program, delete_program => true
  | _, _ => false
  end.

Definition resource_eqb (r r' : resource) : bool :=
  callable_eqb (fst r) (fst r') && (snd r =? snd r').

(** The resource a call allocates (a name that is not 0). *)
Definition allocated_by (c : api_call) : option resource :=
  match c with
  | glGenBuffers _ name => if name =? 0 then None else Some (delete_buffer, name)
  | glGenVertexArrays _ name =>
      if name =? 0 then None else Some (delete_vertex_array, name)
  | glCreateShader _ name => if name =? 0 then None else Some (delete_shader, name)
  | glCreateProgram name => if name =? 0 then None else Some (delete_program, name)
  | _ => None
  end.

Definition released_by (c : api_call) : option resource :=
  match c with
  | glDeleteBuffers _ name => Some (delete_buffer, name)
  | glDeleteVertexArrays _ name => Some (delete_vertex_array, name)
  | glDeleteShader name => Some (delete_shader, name)
  | glDeleteProgram name => Some (delete_program, name)
  | _ => None
  end.

Fixpoint remove_first (r : resource) (live : list resource) : list resource :=
  match live with
  | [] => []
  | r' :: live' => if resource_eqb r r' then live' else r' :: remove_first r live'
  end.

(** The resources that are allocated and not released, most recent first,
    once the calls of [t] have been made with [live] outstanding before. *)
Fixpoint outstanding (live : list resource) (t : trace) : list resource :=
  match t with
  | [] => live
  | c :: t' =>
      match allocated_by c, released_by c with
      | Some r, _ => outstanding (r :: live) t'
      | None, Some r => outstanding (remove_first r live) t'
      | None, None => outstanding live t'
      end
  end.

(** A call that neither allocates nor releases. *)
Definition neutral (c : api_call) : bool :=
  match allocated_by c, released_by c with
  | None, None => true
  | _, _ => false
  end.

(** The calls of [create_shader] up to the status query. *)
Definition shader_calls (env : environment) (source : string) (shader_type : GLenum)
    : trace :=
  let shader := created_shader env shader_type in
  [ glCreateShader shader_type shader;
    glShaderSource shader 1 (c_str source);
    glCompileShader shader;
    glGetShaderiv shader GL_COMPILE_STATUS (compile_status env shader source) ].

(** The shader object is created and its source compiles. *)
Definition shader_ok (env : environment) (source : string) (shader_type : GLenum)
    : bool :=
  negb (created_shader env shader_type =? 0)
  && negb (compile_status env (created_shader env shader_type) source =? GL_FALSE).

(** The calls of [create_shader_program] up to the link status query, when
    both shaders are built. *)
Definition link_calls (env : environment) (vertex_shader_source fragment_shader_source : string)
    : trace :=
  let shader_program := created_program env in
  let vertex_shader := created_shader env GL_VERTEX_SHADER in
  let fragment_shader := created_shader env GL_FRAGMENT_SHADER in
  [glCreateProgram shader_program]
  ++ shader_calls env vertex_shader_source GL_VERTEX_SHADER
  ++ shader_calls env fragment_shader_source GL_FRAGMENT_SHADER
  ++ [ glAttachShader shader_program vertex_shader;
       glAttachShader shader_program fragment_shader;
       glLinkProgram shader_program;
       glGetProgramiv shader_program GL_LINK_STATUS (link_status env) ].

Definition is_glDeleteShader (c : api_call) : bool :=
  match c with glDeleteShader _ => true | _ => false end.

(** An environment in which everything succeeds: the two shader files are
    there, the names 1 to 5 are handed out, both shaders compile, the
    program links, and the second iteration of the loop meets a quit
    event. *)
Definition working_environment : environment :=
  {| init_result := 0;
     window := true;
     gl_context := true;
     error_text := "";
     files := <["res/mandelbrot_shader.vs" := "void main() {}"]>
                (<["res/mandelbrot_shader.fs" := "void main() {}"]> ∅);
     gen_buffer := 1;
     gen_vertex_array := 2;
     created_shader := fun shader_type =>
                         if shader_type =? GL_VERTEX_SHADER then 3 else 4;
     compile_status := fun _ _ => GL_TRUE;
     created_program := 5;
     link_status := GL_TRUE;
     events := [[SDL_KEYDOWN SDL_SCANCODE_W]; [SDL_KEYDOWN SDL_SCANCODE_R; SDL_QUIT]] |}.

Definition is_quit (event : SDL_Event) : bool :=
  match event with SDL_QUIT => true | _ => false end.

(** The loop state once the events of [pending] have been handled, in
    order. *)
Definition handle_events (pending : list SDL_Event) (s : loop_state) : loop_state :=
  fold_left (fun s event => handle_event event s) pending s.

(** The scancodes of the key-down events among [pending]. *)
Fixpoint scancodes_of (pending : list SDL_Event) : list SDL_Scancode :=
  match pending with
  | [] => []
  | SDL_KEYDOWN scancode :: pending' => scancode :: scancodes_of pending'
  | _ :: pending' => scancodes_of pending'
  end.

(** Some iteration meets a quit event. *)
Definition quits (frames : list (list SDL_Event)) : bool :=
  existsb (existsb is_quit) frames.

(** The failures of the specification's taxonomy, in the order in which
    [main] can meet them, each with the line that is written to standard
    error: initialisation of the video subsystem, the window, the context;
    allocation of the buffer and of the vertex-array object; reading the two
    shader files; allocation of the program and of each shader, compilation,
    linking. *)
Definition program_failure (env : environment)
    (vertex_shader_source fragment_shader_source : string) : option string :=
  if created_program env =? 0 then Some "shader program creation error"
  else if created_shader env GL_VERTEX_SHADER =? 0 then Some "shader creation error"
  else if compile_status env (created_shader env GL_VERTEX_SHADER)
            vertex_shader_source =? GL_FALSE
  then Some "shader compilation error"
  else if created_shader env GL_FRAGMENT_SHADER =? 0 then Some "shader creation error"
  else if compile_status env (created_shader env GL_FRAGMENT_SHADER)
            fragment_shader_source =? GL_FALSE
  then Some "shader compilation error"
  else if link_status env =? GL_FALSE then Some "failed to link shader program"
  else None.

Definition resource_failure (env : environment) : option string :=
  if gen_buffer env =? 0 then Some "buffer generation error"
  else if gen_vertex_array env =? 0 then Some "vertex array object generation error"
  else
    match files env !! "res/mandelbrot_shader.vs",
          files env !! "res/mandelbrot_shader.fs" with
    | Some vertex_shader_source, Some fragment_shader_source =>
        program_failure env vertex_shader_source fragment_shader_source
    | _, _ => Some "file reading error"
    end.

Definition failure (env : environment) : option string :=
  if init_result env >=? 0 then
    if window env then
      if gl_context env then resource_failure env
      else Some (String.append "SDL_GLContext creation error: " (error_text env))
    else Some (String.append "SDL_Window creation error: " (error_text env))
  else Some (String.append "SDL2 initialization error: " (error_text env)).

(** [{ GLobject a{..}; GLobject b{..}; a = std::move(b); }]: the calls made
    by the time the block has been left.  [a] lives at address 0 and [b]
    at address 1; [b], declared last, is destroyed first. *)
Definition assign_in_block (lib : function_library) (a b : GLobject)
    : option (M unit) :=
  let objs : gmap address GLobject := <[1%nat := b]> (<[0%nat := a]> ∅) in
  match move_assign lib 0%nat 1%nat objs with
  | Some objs' => Some (destroy_all [1%nat; 0%nat] objs')
  | None => None
  end.

(** ** Further observations *)

(** The calls of [create_rectangle_buffer] and of
    [create_rectangle_vertex_array_object] on a name that is not 0. *)
Definition buffer_calls (env : environment) : trace :=
  [ glGenBuffers 1 (gen_buffer env);
    glBindBuffer GL_ARRAY_BUFFER (gen_buffer env);
    glBufferData GL_ARRAY_BUFFER 72 rectangle_data GL_STATIC_DRAW;
    glBindBuffer GL_ARRAY_BUFFER 0 ].

Definition vertex_array_calls (env : environment) : trace :=
  [ glGenVertexArrays 1 (gen_vertex_array env);
    glBindVertexArray (gen_vertex_array env);
    glBindBuffer GL_ARRAY_BUFFER (gen_buffer env);
    glVertexAttribPointer 0 3 GL_FLOAT GL_FALSE 12 0;
    glEnableVertexAttribArray 0;
    glBindBuffer GL_ARRAY_BUFFER 0;
    glBindVertexArray 0 ].

(** The state in which [main] enters its loop. *)
Definition first_state : loop_state :=
  {| the_view := initial_view; running := true |}.

(** What a run holds on to: the SDL video subsystem, the window, the
    OpenGL context, and the OpenGL resources. *)
Inductive holding :=
| Video
| Window
| Context
| Resource (r : resource).

Definition holding_eqb (h h' : holding) : bool :=
  match h, h' with
  | Video, Video | Window, Window | Context, Context => true
  | Resource r, Resource r' => resource_eqb r r'
  | _, _ => false
  end.

Definition acquired_by (c : api_call) : option holding :=
  match c with
  | SDL_Init out => if out >=? 0 then Some Video else None
  | SDL_CreateWindow _ _ _ out => if out then Some Window else None
  | SDL_GL_CreateContext out => if out then Some Context else None
  | _ => option_map Resource (allocated_by c)
  end.

Definition given_up_by (c : api_call) : option holding :=
  match c with
  | SDL_Quit => Some Video
  | SDL_DestroyWindow => Some Window
  | SDL_GL_DeleteContext => Some Context
  | _ => option_map Resource (released_by c)
  end.

(** The stack of what is held once the calls of [t] are made with [held]
    before, most recent first; [None] when some call gives up anything but
    the most recent acquisition. *)
Fixpoint nested (held : list holding) (t : trace) : option (list holding) :=
  match t with
  | [] => Some held
  | c :: t' =>
      match acquired_by c, given_up_by c with
      | Some h, _ => nested (h :: held) t'
      | None, Some h =>
          match held with
          | h' :: held' => if holding_eqb h h' then nested held' t' else None
          | [] => None
          end
      | None, None => nested held t'
      end
  end.

Definition is_SDL_call (c : api_call) : bool :=
  match c with
  | SDL_Init _ | SDL_GL_SetAttribute _ _ | SDL_CreateWindow _ _ _ _
  | SDL_GL_CreateContext _ | SDL_PollEvent _ | SDL_GL_SwapWindow | SDL_Delay _
  | SDL_GL_DeleteContext | SDL_DestroyWindow | SDL_Quit => true
  | _ => false
  end.

(** Every OpenGL call (and [glewInit], and the buffer swap) of [t] is made
    while an OpenGL context exists; [current] tells whether one exists
    before [t]. *)
Fixpoint context_respected (current : bool) (t : trace) : bool :=
  match t with
  | [] => true
  | SDL_GL_CreateContext out :: t' => context_respected out t'
  | SDL_GL_DeleteContext :: t' => current && context_respected false t'
  | SDL_GL_SwapWindow :: t' => current && context_respected current t'
  | c :: t' =>
      (is_SDL_call c || current) && context_respected current t'
  end.

(** The names that are bound: to [GL_ARRAY_BUFFER], as vertex array, as
    program in use. *)
Record bound := {
  array_buffer : GLuint;
  vertex_array : GLuint;
  program_in_use : GLuint
}.

Definition nothing_bound : bound :=
  {| array_buffer := 0; vertex_array := 0; program_in_use := 0 |}.

(** The bindings after the calls of [t]; [None] when a call of [t] works on
    a binding point to which nothing is bound: an upload to
    [GL_ARRAY_BUFFER] without a buffer,
    a vertex attribute without a vertex array or without a buffer, a
    uniform without a program, a draw without a program or without a
    vertex array. *)
Fixpoint bindings (b : bound) (t : trace) : option bound :=
  match t with
  | [] => Some b
  | c :: t' =>
      match c with
      | glBindBuffer target name =>
          if target =? GL_ARRAY_BUFFER
          then bindings {| array_buffer := name; vertex_array := vertex_array b;
                           program_in_use := program_in_use b |} t'
          else bindings b t'
      | glBindVertexArray name =>
          bindings {| array_buffer := array_buffer b; vertex_array := name;
                      program_in_use := program_in_use b |} t'
      | glUseProgram name =>
          bindings {| array_buffer := array_buffer b; vertex_array := vertex_array b;
                      program_in_use := name |} t'
      | glBufferData target _ _ _ =>
          if (target =? GL_ARRAY_BUFFER) && (array_buffer b =? 0) then None
          else bindings b t'
      | glVertexAttribPointer _ _ _ _ _ _ =>
          if (array_buffer b =? 0) || (vertex_array b =? 0) then None
          else bindings b t'
      | glEnableVertexAttribArray _ =>
          if vertex_array b =? 0 then None else bindings b t'
      | glUniform1f _ _ | glUniform2f _ _ _ | glUniform1ui _ _ =>
          if program_in_use b =? 0 then None else bindings b t'
      | glDrawArrays _ _ _ =>
          if (program_in_use b =? 0) || (vertex_array b =? 0) then None
          else bindings b t'
      | _ => bindings b t'
      end
  end.

(** The calls that only the loop makes. *)
Definition is_loop_call (c : api_call) : bool :=
  match c with
  | SDL_PollEvent _ | glUseProgram _ | glUniform1f _ _ | glUniform2f _ _ _
  | glUniform1ui _ _ | glClear _ | glDrawArrays _ _ _ | SDL_GL_SwapWindow
  | SDL_Delay _ => true
  | _ => false
  end.

Definition is_glDrawArrays (c : api_call) : bool :=
  match c with glDrawArrays _ _ _ => true | _ => false end.

Definition is_glShaderSource (c : api_call) : bool :=
  match c with glShaderSource _ _ _ => true | _ => false end.

(** An iteration count as it is uploaded: to location 4, within the range of
    [unsigned]. *)
Definition iterations_upload_ok (c : api_call) : bool :=
  match c with
  | glUniform1ui location v0 => (location =? 4) && (0 <=? v0) && (v0 <? 2 ^ 32)
  | _ => true
  end.

(** The scancodes the loop reacts to. *)
Definition bound_keys : list SDL_Scancode :=
  [ SDL_SCANCODE_W; SDL_SCANCODE_S; SDL_SCANCODE_A; SDL_SCANCODE_D;
    SDL_SCANCODE_Z; SDL_SCANCODE_X; SDL_SCANCODE_R; SDL_SCANCODE_E ].

(** A call that neither acquires nor gives up anything. *)
Definition holds_nothing (c : api_call) : bool :=
  match acquired_by c, given_up_by c with
  | None, None => true
  | _, _ => false
  end.

(** A call that neither creates nor deletes the OpenGL context. *)
Definition keeps_context (c : api_call) : bool :=
  match c with
  | SDL_GL_CreateContext _ | SDL_GL_DeleteContext => false
  | _ => true
  end.

(** A call that neither binds nor works on a binding point. *)
Definition binding_free (c : api_call) : bool :=
  match c with
  | glBindBuffer _ _ | glBindVertexArray _ | glUseProgram _
  | glBufferData _ _ _ _ | glVertexAttribPointer _ _ _ _ _ _
  | glEnableVertexAttribArray _ | glUniform1f _ _ | glUniform2f _ _ _
  | glUniform1ui _ _ | glDrawArrays _ _ _ => false
  | _ => true
  end.

Definition not_loop_call (c : api_call) : bool := negb (is_loop_call c).

(** What a factory of resources of kind [f] leaves behind, with [live]
    outstanding before it: when it returns, a handle with a name other than
    0 whose deleter is [f], and that name as the one resource it has added;
    when it throws, nothing added.  It does not end otherwise. *)
Definition owns_what_it_returns (f : callable) (live : list resource)
    (result : M GLobject) : Prop :=
  match fst result with
  | Normal o =>
      index o <> 0
      /\ deleter o = Some f
      /\ outstanding live (snd result) = (f, index o) :: live
  | Thrown _ => outstanding live (snd result) = live
  | Terminated | OutOfInput => False
  end.

(** * Properties *)

(** ** The view state *)

(** The [float] literals are binary32 numbers, the ones the decimal
    literals of the source denote. *)
Lemma float_literals :
  forallb Float32.valid
    [Float32.zero; Float32.one; Float32.m_one; Float32.m_two; Float32.tenth] = true
  /\ Float32.one = Float32.of_Z 1
  /\ Float32.m_one = Float32.of_Z (-1)
  /\ Float32.m_two = Float32.of_Z (-2)
  /\ Float32.tenth = Float32.div (Float32.of_Z 1) (Float32.of_Z 10).
Proof. repeat split. Qed.

Lemma wrap32_range (n : Z) : unsigned_range (wrap32 n).
Proof. unfold unsigned_range, wrap32. apply Z.mod_pos_bound. lia. Qed.

Lemma wrap32_small (n : Z) : unsigned_range n -> wrap32 n = n.
Proof. unfold unsigned_range, wrap32. intros H. apply Z.mod_small. exact H. Qed.

Lemma key_down_range (scancode : SDL_Scancode) (v : view) :
  unsigned_range (max_iterations v) ->
  unsigned_range (max_iterations (key_down scancode v)).
Proof.
  intros Hv. unfold key_down. cbn [max_iterations].
  destruct (scancode =? SDL_SCANCODE_R); [apply wrap32_range|].
  destruct (scancode =? SDL_SCANCODE_E); [|exact Hv].
  destruct (max_iterations v >? 0); [apply wrap32_range | exact Hv].
Qed.

Lemma key_downs_range (scancodes : list SDL_Scancode) (v : view) :
  unsigned_range (max_iterations v) ->
  unsigned_range (max_iterations (key_downs scancodes v)).
Proof.
  revert v. induction scancodes as [|scancode scancodes IH]; intros v Hv.
  - exact Hv.
  - apply (IH (key_down scancode v)). apply key_down_range. exact Hv.
Qed.

Lemma key_down_E_at_zero (v : view) :
  max_iterations v = 0 -> key_down SDL_SCANCODE_E v = v.
Proof.
  intros H0. destruct v as [n s vx vy]. cbn in H0. subst n. reflexivity.
Qed.

(** C5.  Whatever keys are pressed, starting from a count in the range of
    [unsigned], the count stays in that range, so it is never negative; and
    when the count has reached 0, the decrease key (E) leaves the view, and
    so the count, as it is. *)
Theorem max_iterations_never_negative
    (scancodes : list SDL_Scancode) (v : view) :
  unsigned_range (max_iterations v) ->
  0 <= max_iterations (key_downs scancodes v)
  /\ 0 <= max_iterations (key_downs (scancodes ++ [SDL_SCANCODE_R]) v)
  /\ (max_iterations (key_downs scancodes v) = 0 ->
      max_iterations (key_downs (scancodes ++ [SDL_SCANCODE_E]) v) = 0).
Proof.
  intros Hv. split; [|split].
  - apply key_downs_range. exact Hv.
  - apply key_downs_range. exact Hv.
  - intros H0. unfold key_downs. rewrite fold_left_app. cbn [fold_left].
    fold (key_downs scancodes v). rewrite key_down_E_at_zero; assumption.
Qed.

Lemma max_iterations_never_negative_witness :
  let scancodes := [SDL_SCANCODE_E; SDL_SCANCODE_R; SDL_SCANCODE_E; SDL_SCANCODE_E] in
  let v := {| max_iterations := 1; scale := Float32.one;
              x := Float32.zero; y := Float32.zero |} in
  unsigned_range (max_iterations v)
  /\ 0 <= max_iterations (key_downs scancodes v)
  /\ 0 <= max_iterations (key_downs (scancodes ++ [SDL_SCANCODE_R]) v)
  /\ (max_iterations (key_downs scancodes v) = 0 ->
      max_iterations (key_downs (scancodes ++ [SDL_SCANCODE_E]) v) = 0).
Proof.
  cbv zeta.
  assert (H : unsigned_range 1) by (unfold unsigned_range; lia).
  split; [exact H|].
  exact (max_iterations_never_negative
           [SDL_SCANCODE_E; SDL_SCANCODE_R; SDL_SCANCODE_E; SDL_SCANCODE_E]
           {| max_iterations := 1; scale := Float32.one;
              x := Float32.zero; y := Float32.zero |} H).
Defined.

(** From the initial view, W moves [y] to [0.1F]; at twice the zoom the
    same key moves it by [0.1F / 2]. *)
Example pan_from_initial_view :
  y (key_down SDL_SCANCODE_W initial_view) = Float32.tenth
  /\ y (key_down SDL_SCANCODE_W
          {| max_iterations := 30; scale := Float32.of_Z 2;
             x := Float32.zero; y := Float32.zero |})
     = S754_finite false 13421773 (-28).
Proof. split; reflexivity. Qed.

(** C6.  The deltas of the six pan and zoom keys, in binary32 arithmetic:
    W and S add and subtract [0.1F / scale] on [y], D and A add and
    subtract it on [x], Z and X add and subtract [0.1F * scale] on [scale];
    each key leaves the three other fields as they are. *)
Theorem pan_and_zoom_deltas (v : view) :
  let move_delta := Float32.div Float32.tenth (scale v) in
  let zoom_delta := Float32.mul Float32.tenth (scale v) in
  key_down SDL_SCANCODE_W v =
    {| max_iterations := max_iterations v; scale := scale v; x := x v;
       y := Float32.add (y v) move_delta |}
  /\ key_down SDL_SCANCODE_S v =
    {| max_iterations := max_iterations v; scale := scale v; x := x v;
       y := Float32.sub (y v) move_delta |}
  /\ key_down SDL_SCANCODE_A v =
    {| max_iterations := max_iterations v; scale := scale v;
       x := Float32.sub (x v) move_delta; y := y v |}
  /\ key_down SDL_SCANCODE_D v =
    {| max_iterations := max_iterations v; scale := scale v;
       x := Float32.add (x v) move_delta; y := y v |}
  /\ key_down SDL_SCANCODE_Z v =
    {| max_iterations := max_iterations v;
       scale := Float32.add (scale v) zoom_delta; x := x v; y := y v |}
  /\ key_down SDL_SCANCODE_X v =
    {| max_iterations := max_iterations v;
       scale := Float32.sub (scale v) zoom_delta; x := x v; y := y v |}.
Proof. cbv zeta. repeat split. Qed.

(** C7, as stated, fails.  At [x = 1], [y = 0], [scale = 1] the frame
    uploads the horizontal bounds [(-1, 2)] and the vertical bounds
    [(-1, 1)]; with their offset taken from [x] the vertical bounds would be
    [(0, 2)]. *)
Lemma vertical_offset_is_not_x :
  let v := {| max_iterations := 30; scale := Float32.of_Z 1;
              x := Float32.of_Z 1; y := Float32.of_Z 0 |} in
  List.filter is_glUniform2f (snd (draw 1 2 v))
    = [ glUniform2f 2 (Float32.of_Z (-1)) (Float32.of_Z 2);
        glUniform2f 3 (Float32.of_Z (-1)) (Float32.of_Z 1) ]
  /\ bounds_with_offset Float32.m_one Float32.one (scale v) (x v)
     = (Float32.of_Z 0, Float32.of_Z 2)
  /\ vertical_bounds v
     <> bounds_with_offset Float32.m_one Float32.one (scale v) (x v).
Proof. cbv zeta. split; [reflexivity | split; [reflexivity | discriminate]]. Qed.

(** C7, amended.  The frame uploads two pairs of bounds.  [x] is the offset
    of both ends of the horizontal pair (location 2) and of nothing else;
    [y] is the offset of both ends of the vertical pair (location 3).  The
    vertical pair does not depend on [x], nor the horizontal pair on [y]. *)
Theorem bounds_offsets (shader_program vertex_array_object : GLuint) (v : view) :
  List.filter is_glUniform2f (snd (draw shader_program vertex_array_object v)) =
    [ glUniform2f 2 (fst (horizontal_bounds v)) (snd (horizontal_bounds v));
      glUniform2f 3 (fst (vertical_bounds v)) (snd (vertical_bounds v)) ]
  /\ horizontal_bounds v
     = bounds_with_offset Float32.m_two Float32.one (scale v) (x v)
  /\ vertical_bounds v
     = bounds_with_offset Float32.m_one Float32.one (scale v) (y v)
  /\ (forall x',
        vertical_bounds {| max_iterations := max_iterations v; scale := scale v;
                           x := x'; y := y v |} = vertical_bounds v)
  /\ (forall y',
        horizontal_bounds {| max_iterations := max_iterations v; scale := scale v;
                             x := x v; y := y' |} = horizontal_bounds v).
Proof. repeat split. Qed.

(** C10.  The increase key (R) adds one modulo [2^32]: at [2^32 - 1] the
    count wraps to 0, which is less than the count before, although it is
    not negative. *)
Theorem max_iterations_wraps (v : view) :
  max_iterations (key_down SDL_SCANCODE_R v) = (max_iterations v + 1) mod 2 ^ 32
  /\ (forall s vx vy,
        let top := {| max_iterations := 2 ^ 32 - 1; scale := s; x := vx; y := vy |} in
        max_iterations (key_down SDL_SCANCODE_R top) = 0
        /\ max_iterations (key_down SDL_SCANCODE_R top) < max_iterations top
        /\ 0 <= max_iterations (key_down SDL_SCANCODE_R top)).
Proof.
  split; [reflexivity|]. intros s vx vy. cbv zeta.
  change (max_iterations
            (key_down SDL_SCANCODE_R
               {| max_iterations := 2 ^ 32 - 1; scale := s; x := vx; y := vy |}))
    with (wrap32 (2 ^ 32 - 1 + 1)).
  unfold wrap32. replace (2 ^ 32 - 1 + 1) with (2 ^ 32) by lia.
  rewrite Z.mod_same by lia. cbn [max_iterations]. lia.
Qed.

(** ** The owning handle *)

Lemma filter_none {A} (p : A -> bool) (l : list A) :
  (forall c, In c l -> p c = false) -> List.filter p l = [].
Proof.
  induction l as [|c l IH]; intros H; [reflexivity|].
  cbn [List.filter]. rewrite (H c) by (left; reflexivity).
  apply IH. intros c' Hc'. apply H. right. exact Hc'.
Qed.

Lemma is_release_of_release_call (f : callable) (i j : GLuint) :
  is_release_of i (release_call f j) = (j =? i).
Proof. destruct f; reflexivity. Qed.

(** A handle that is constructed and destroyed, and not moved in between,
    calls its release function once, on its name. *)
Lemma destroy_owner (f : callable) (i : GLuint) :
  destroy (GLobject_new i (Some f)) = (Normal tt, [release_call f i]).
Proof. reflexivity. Qed.

(** The move constructor hands the name and the deleter over and zeroes the
    source. *)
Lemma move_construct_zeroes_source (lib : function_library)
    (objs : gmap address GLobject) (this globject : address) (g : GLobject) :
  this <> globject ->
  objs !! globject = Some g ->
  exists objs',
    move_construct lib this globject objs = Some objs'
    /\ objs' !! this = Some g
    /\ objs' !! globject =
         Some {| index := 0; deleter := after_move_construct lib (deleter g) |}.
Proof.
  intros Hne Hg. unfold move_construct. rewrite Hg. eexists. split; [reflexivity|].
  split.
  - rewrite lookup_alter_ne by congruence.
    rewrite lookup_insert_ne by congruence.
    rewrite lookup_insert_eq. destruct g; reflexivity.
  - rewrite lookup_alter_eq, lookup_insert_eq. reflexivity.
Qed.

(** What the destructor of a moved-from source then does hangs on the
    library: with the target left in place the release function is called
    on 0; with the function left empty the call throws in a destructor. *)
Lemma destroy_moved_from_source (f : callable) :
  destroy {| index := 0; deleter := after_move_construct retaining (Some f) |}
    = (Normal tt, [release_call f 0])
  /\ destroy {| index := 0; deleter := after_move_construct emptying (Some f) |}
    = (Terminated, []).
Proof. split; reflexivity. Qed.

Lemma move_assign_objects (lib : function_library)
    (objs : gmap address GLobject) (this globject : address) (a g : GLobject) :
  this <> globject ->
  objs !! this = Some a ->
  objs !! globject = Some g ->
  move_assign lib this globject objs =
    Some (<[globject := {| index := index g;
                           deleter := after_move_assign lib (deleter a) (deleter g) |}]>
            (<[this := g]> objs)).
Proof.
  intros Hne Ha Hg. unfold move_assign.
  destruct (decide (this = globject)) as [E|_]; [contradiction|].
  rewrite Ha, Hg. rewrite insert_insert_eq. destruct g; reflexivity.
Qed.

Lemma move_assign_self (lib : function_library)
    (objs : gmap address GLobject) (this : address) :
  move_assign lib this this objs = Some objs.
Proof.
  unfold move_assign. destruct (decide (this = this)); [reflexivity | contradiction].
Qed.

(** C2, as stated, fails where a moved-from [std::function] is empty, as
    libstdc++, libc++ and the MSVC library leave it.  After
    [a = std::move(b)] on handles that own the buffers 1 and 2, [b] still
    holds the name 2, but its destructor releases nothing: the invocation of
    its empty deleter throws in the destructor and ends the program.  The
    name 2 is handed to the release function once, by [a], not twice. *)
Lemma moved_from_deleter_releases_nothing :
  let objs : gmap address GLobject :=
    <[1%nat := GLobject_new 2 (Some delete_buffer)]>
      (<[0%nat := GLobject_new 1 (Some delete_buffer)]> ∅) in
  exists objs' a' b',
    move_assign emptying 0%nat 1%nat objs = Some objs'
    /\ objs' !! 0%nat = Some a' /\ objs' !! 1%nat = Some b'
    /\ index b' = 2
    /\ destroy a' = (Normal tt, [glDeleteBuffers 1 2])
    /\ destroy b' = (Terminated, [])
    /\ releases_of 2 (snd (destroy a') ++ snd (destroy b')) = 1%nat.
Proof.
  cbv zeta.
  exists (<[1%nat := {| index := 2; deleter := None |}]>
            (<[0%nat := GLobject_new 2 (Some delete_buffer)]>
               (<[1%nat := GLobject_new 2 (Some delete_buffer)]>
                  (<[0%nat := GLobject_new 1 (Some delete_buffer)]> ∅)))),
    (GLobject_new 2 (Some delete_buffer)), {| index := 2; deleter := None |}.
  split.
  - apply (move_assign_objects emptying _ 0%nat 1%nat
             (GLobject_new 1 (Some delete_buffer))
             (GLobject_new 2 (Some delete_buffer))); [lia | reflexivity | reflexivity].
  - split; [rewrite lookup_insert_ne by lia; apply lookup_insert_eq|].
    split; [apply lookup_insert_eq|]. repeat split.
Qed.

(** C2, amended.  [a = std::move(b)] with [a] at [pa], [b] at [pb],
    [pa <> pb]: afterwards both objects hold [b]'s name (the source is not
    zeroed) and [a] holds [b]'s deleter; [a]'s former name is handed to no
    release function by either destructor, every release call they make
    being on [b]'s name; [b]'s destructor invokes, on that same name, the
    function the move left in [b].  Where that function is empty (the
    standard libraries in use) the invocation throws inside the destructor,
    the program ends and the name is not released by [b]; only where a
    target is left in it does [b]'s destructor release the name as well. *)
Theorem move_assign_source_not_zeroed (lib : function_library)
    (objs : gmap address GLobject) (pa pb : address) (a b : GLobject) :
  pa <> pb ->
  objs !! pa = Some a ->
  objs !! pb = Some b ->
  exists objs' a' b',
    move_assign lib pa pb objs = Some objs'
    /\ objs' !! pa = Some a' /\ objs' !! pb = Some b'
    /\ index a' = index b /\ deleter a' = deleter b
    /\ index b' = index b
    /\ deleter b' = after_move_assign lib (deleter a) (deleter b)
    /\ destroy a' = noexcept (invoke (deleter b) (index b))
    /\ destroy b' = noexcept (invoke (deleter b') (index b))
    /\ (forall c, In c (snd (destroy a') ++ snd (destroy b')) ->
          exists f, c = release_call f (index b))
    /\ (index a <> index b ->
          releases_of (index a) (snd (destroy a') ++ snd (destroy b')) = 0%nat)
    /\ destroy b' = match deleter b' with
                    | None => (Terminated, [])
                    | Some f => (Normal tt, [release_call f (index b)])
                    end.
Proof.
  intros Hne Ha Hb.
  exists (<[pb := {| index := index b;
                     deleter := after_move_assign lib (deleter a) (deleter b) |}]>
            (<[pa := b]> objs)), b,
    {| index := index b; deleter := after_move_assign lib (deleter a) (deleter b) |}.
  split; [exact (move_assign_objects lib objs pa pb a b Hne Ha Hb)|].
  split; [rewrite lookup_insert_ne by congruence; apply lookup_insert_eq|].
  split; [apply lookup_insert_eq|].
  cbn [index deleter].
  repeat (split; [reflexivity|]).
  assert (Hcalls : forall c,
             In c (snd (destroy b)
                   ++ snd (destroy {| index := index b;
                                      deleter := after_move_assign lib (deleter a)
                                                   (deleter b) |})) ->
             exists f, c = release_call f (index b)).
  { intros c Hc. apply in_app_or in Hc. unfold destroy in Hc. cbn [index deleter] in Hc.
    destruct Hc as [Hc|Hc].
    - destruct (deleter b) as [f|]; cbn in Hc; [|contradiction].
      destruct Hc as [<-|[]]. exists f. reflexivity.
    - destruct (after_move_assign lib (deleter a) (deleter b)) as [f|];
        cbn in Hc; [|contradiction].
      destruct Hc as [<-|[]]. exists f. reflexivity. }
  split; [exact Hcalls|].
  split.
  - intros Hidx. unfold releases_of.
    rewrite filter_none; [reflexivity|].
    intros c Hc. destruct (Hcalls c Hc) as [f ->].
    rewrite is_release_of_release_call. apply Z.eqb_neq. congruence.
  - unfold destroy. cbn [index deleter].
    destruct (after_move_assign lib (deleter a) (deleter b)); reflexivity.
Qed.

Lemma move_assign_source_not_zeroed_witness :
  let objs : gmap address GLobject :=
    <[1%nat := GLobject_new 2 (Some delete_buffer)]>
      (<[0%nat := GLobject_new 1 (Some delete_buffer)]> ∅) in
  0%nat <> 1%nat
  /\ objs !! 0%nat = Some (GLobject_new 1 (Some delete_buffer))
  /\ objs !! 1%nat = Some (GLobject_new 2 (Some delete_buffer))
  /\ exists objs' a' b',
       move_assign emptying 0%nat 1%nat objs = Some objs'
       /\ objs' !! 0%nat = Some a' /\ objs' !! 1%nat = Some b'
       /\ index a' = 2 /\ index b' = 2
       /\ destroy b' = (Terminated, []).
Proof.
  cbv zeta.
  assert (Hne : 0%nat <> 1%nat) by lia.
  assert (Ha : (<[1%nat := GLobject_new 2 (Some delete_buffer)]>
                  (<[0%nat := GLobject_new 1 (Some delete_buffer)]> ∅)
                : gmap address GLobject) !! 0%nat
               = Some (GLobject_new 1 (Some delete_buffer))) by reflexivity.
  assert (Hb : (<[1%nat := GLobject_new 2 (Some delete_buffer)]>
                  (<[0%nat := GLobject_new 1 (Some delete_buffer)]> ∅)
                : gmap address GLobject) !! 1%nat
               = Some (GLobject_new 2 (Some delete_buffer))) by reflexivity.
  split; [exact Hne|]. split; [exact Ha|]. split; [exact Hb|].
  destruct (move_assign_source_not_zeroed emptying _ _ _ _ _ Hne Ha Hb)
    as (objs' & a' & b' & Hm & Hla & Hlb & Hia & Hda & Hib & Hdb & _ & _ & _ & _ & Hend).
  exists objs', a', b'.
  repeat (split; [assumption|]).
  rewrite Hdb in Hend. exact Hend.
Defined.

(** C1, on [operator=(GLobject&&)].  Two handles own the buffers 1 and 2;
    [a = std::move(b)] and the end of the block follow.  Whatever the
    library leaves in a function that was moved from, buffer 1 is never
    released.  Buffer 2 is released twice where the library leaves the
    target in place; where it leaves the function empty, the destructor of
    [b] ends the program before any release. *)
Theorem move_assign_breaks_exactly_once (lib : function_library) :
  let a := GLobject_new 1 (Some delete_buffer) in
  let b := GLobject_new 2 (Some delete_buffer) in
  (exists r, assign_in_block lib a b = Some r /\ releases_of 1 (snd r) = 0%nat)
  /\ assign_in_block retaining a b
     = Some (Normal tt, [glDeleteBuffers 1 2; glDeleteBuffers 1 2])
  /\ assign_in_block emptying a b = Some (Terminated, []).
Proof.
  cbv zeta. split; [|split; reflexivity].
  unfold assign_in_block.
  rewrite (move_assign_objects lib _ 0%nat 1%nat
             (GLobject_new 1 (Some delete_buffer))
             (GLobject_new 2 (Some delete_buffer)))
    by (lia || reflexivity).
  cbn [destroy_all]. rewrite lookup_insert_eq.
  rewrite lookup_insert_ne by lia. rewrite lookup_insert_eq.
  cbn [index deleter GLobject_new].
  destruct (after_move_assign lib (Some delete_buffer) (Some delete_buffer)) as [[]|];
    eexists; (split; [reflexivity|]); reflexivity.
Qed.

(** ** The factories *)

Lemma create_rectangle_buffer_run (env : environment) :
  create_rectangle_buffer env =
    let buffer := gen_buffer env in
    if buffer =? 0
    then (Thrown (runtime_error "buffer generation error"), [glGenBuffers 1 buffer])
    else (Normal (GLobject_new buffer (Some delete_buffer)),
          [ glGenBuffers 1 buffer;
            glBindBuffer GL_ARRAY_BUFFER buffer;
            glBufferData GL_ARRAY_BUFFER 72 rectangle_data GL_STATIC_DRAW;
            glBindBuffer GL_ARRAY_BUFFER 0 ]).
Proof.
  cbv zeta. unfold create_rectangle_buffer.
  destruct (gen_buffer env =? 0); reflexivity.
Qed.

Lemma create_rectangle_vertex_array_object_run
    (env : environment) (rectangle_buffer : GLobject) :
  create_rectangle_vertex_array_object env rectangle_buffer =
    let vertex_array_object := gen_vertex_array env in
    if vertex_array_object =? 0
    then (Thrown (runtime_error "vertex array object generation error"),
          [glGenVertexArrays 1 vertex_array_object])
    else (Normal (GLobject_new vertex_array_object (Some delete_vertex_array)),
          [ glGenVertexArrays 1 vertex_array_object;
            glBindVertexArray vertex_array_object;
            glBindBuffer GL_ARRAY_BUFFER (index rectangle_buffer);
            glVertexAttribPointer 0 3 GL_FLOAT GL_FALSE 12 0;
            glEnableVertexAttribArray 0;
            glBindBuffer GL_ARRAY_BUFFER 0;
            glBindVertexArray 0 ]).
Proof.
  cbv zeta. unfold create_rectangle_vertex_array_object.
  destruct (gen_vertex_array env =? 0); reflexivity.
Qed.

Lemma create_shader_run (env : environment) (source : string) (shader_type : GLenum) :
  create_shader env source shader_type =
    let shader := created_shader env shader_type in
    if shader =? 0
    then (Thrown (runtime_error "shader creation error"),
          [glCreateShader shader_type shader])
    else if compile_status env shader source =? GL_FALSE
    then (Thrown (runtime_error "shader compilation error"),
          shader_calls env source shader_type ++ [glDeleteShader shader])
    else (Normal (GLobject_new shader (Some delete_shader)),
          shader_calls env source shader_type).
Proof.
  cbv zeta. unfold create_shader.
  destruct (created_shader env shader_type =? 0); [reflexivity|].
  cbn.
  destruct (compile_status env (created_shader env shader_type) source =? GL_FALSE);
    reflexivity.
Qed.

Lemma create_shader_ok (env : environment) (source : string) (shader_type : GLenum) :
  shader_ok env source shader_type = true ->
  create_shader env source shader_type =
    (Normal (GLobject_new (created_shader env shader_type) (Some delete_shader)),
     shader_calls env source shader_type).
Proof.
  unfold shader_ok. intros H. apply andb_true_iff in H. destruct H as [H0 H1].
  apply negb_true_iff in H0, H1.
  rewrite create_shader_run. cbv zeta. rewrite H0, H1. reflexivity.
Qed.

(** What [create_shader_program] does once the program object exists. *)
Lemma create_shader_program_run (env : environment)
    (vertex_shader_source fragment_shader_source : string) :
  created_program env <> 0 ->
  shader_ok env vertex_shader_source GL_VERTEX_SHADER = true ->
  shader_ok env fragment_shader_source GL_FRAGMENT_SHADER = true ->
  create_shader_program env vertex_shader_source fragment_shader_source =
    let shader_program := created_program env in
    let vertex_shader := created_shader env GL_VERTEX_SHADER in
    let fragment_shader := created_shader env GL_FRAGMENT_SHADER in
    if link_status env =? GL_FALSE
    then (Thrown (runtime_error "failed to link shader program"),
          link_calls env vertex_shader_source fragment_shader_source
          ++ [ glDeleteShader fragment_shader;
               glDeleteShader vertex_shader;
               glDeleteProgram shader_program ])
    else (Normal (GLobject_new shader_program (Some delete_program)),
          link_calls env vertex_shader_source fragment_shader_source
          ++ [ glDetachShader shader_program vertex_shader;
               glDetachShader shader_program fragment_shader;
               glDeleteShader fragment_shader;
               glDeleteShader vertex_shader ]).
Proof.
  intros Hp Hv Hf. cbv zeta. unfold create_shader_program.
  apply Z.eqb_neq in Hp. rewrite Hp.
  rewrite (create_shader_ok env _ _ Hv), (create_shader_ok env _ _ Hf).
  destruct (link_status env =? GL_FALSE); reflexivity.
Qed.

Ltac settle_names :=
  repeat match goal with
    | H : (?n =? 0) = _ |- context [?n =? 0] => rewrite H
    | |- context [?n =? ?n] => rewrite (Z.eqb_refl n)
    | |- _ => progress cbn
    end.

(** However [create_shader_program] ends, in whatever environment, the one
    resource it adds to those outstanding is the program it returns: after
    an exception nothing is added. *)
Lemma create_shader_program_balanced (env : environment)
    (vertex_shader_source fragment_shader_source : string) (live : list resource) :
  outstanding live
    (snd (create_shader_program env vertex_shader_source fragment_shader_source)) =
    match fst (create_shader_program env vertex_shader_source fragment_shader_source) with
    | Normal o => (delete_program, index o) :: live
    | _ => live
    end.
Proof.
  unfold create_shader_program.
  destruct (created_program env =? 0) eqn:Ep; [cbn; rewrite Ep; reflexivity|].
  rewrite !create_shader_run. cbv zeta. unfold shader_calls.
  destruct (created_shader env GL_VERTEX_SHADER =? 0) eqn:Ev;
    [settle_names; reflexivity|].
  destruct (compile_status env (created_shader env GL_VERTEX_SHADER)
              vertex_shader_source =? GL_FALSE);
    [settle_names; reflexivity|].
  destruct (created_shader env GL_FRAGMENT_SHADER =? 0) eqn:Ef;
    [settle_names; reflexivity|].
  destruct (compile_status env (created_shader env GL_FRAGMENT_SHADER)
              fragment_shader_source =? GL_FALSE);
    [settle_names; reflexivity|].
  destruct (link_status env =? GL_FALSE); settle_names; reflexivity.
Qed.

(** C3.  When the program object and the two shader objects are built,
    [create_shader_program] makes the calls of [link_calls] (which create
    the vertex and the fragment shader) and then, whether the link status
    is [GL_FALSE] or not, releases the fragment shader and the vertex
    shader, each once, before it is left.  On a failed link it throws
    "failed to link shader program" and leaves no resource allocated; on a
    successful link it returns the program, the only resource left. *)
Theorem shaders_released_whatever_the_link_status (env : environment)
    (vertex_shader_source fragment_shader_source : string) :
  created_program env <> 0 ->
  shader_ok env vertex_shader_source GL_VERTEX_SHADER = true ->
  shader_ok env fragment_shader_source GL_FRAGMENT_SHADER = true ->
  let result := create_shader_program env vertex_shader_source fragment_shader_source in
  exists last_calls,
    snd result = link_calls env vertex_shader_source fragment_shader_source ++ last_calls
    /\ List.filter is_glDeleteShader last_calls
       = [ glDeleteShader (created_shader env GL_FRAGMENT_SHADER);
           glDeleteShader (created_shader env GL_VERTEX_SHADER) ]
    /\ (if link_status env =? GL_FALSE
        then fst result = Thrown (runtime_error "failed to link shader program")
             /\ outstanding [] (snd result) = []
        else fst result = Normal (GLobject_new (created_program env) (Some delete_program))
             /\ outstanding [] (snd result) = [(delete_program, created_program env)]).
Proof.
  intros Hp Hv Hf result.
  pose proof (create_shader_program_balanced env vertex_shader_source
                fragment_shader_source []) as Hbal.
  fold result in Hbal. revert Hbal. unfold result.
  rewrite (create_shader_program_run env _ _ Hp Hv Hf). cbv zeta.
  destruct (link_status env =? GL_FALSE); cbn [fst snd]; intros Hbal;
    eexists; (split; [reflexivity|]); (split; [reflexivity|]);
    (split; [reflexivity | exact Hbal]).
Qed.

Lemma shaders_released_whatever_the_link_status_witness :
  created_program working_environment <> 0
  /\ shader_ok working_environment "void main() {}" GL_VERTEX_SHADER = true
  /\ shader_ok working_environment "void main() {}" GL_FRAGMENT_SHADER = true
  /\ exists last_calls,
       snd (create_shader_program working_environment "void main() {}" "void main() {}")
       = link_calls working_environment "void main() {}" "void main() {}" ++ last_calls
       /\ List.filter is_glDeleteShader last_calls = [glDeleteShader 4; glDeleteShader 3].
Proof.
  assert (Hp : created_program working_environment <> 0) by discriminate.
  assert (Hv : shader_ok working_environment "void main() {}" GL_VERTEX_SHADER = true)
    by reflexivity.
  assert (Hf : shader_ok working_environment "void main() {}" GL_FRAGMENT_SHADER = true)
    by reflexivity.
  split; [exact Hp|]. split; [exact Hv|]. split; [exact Hf|].
  destruct (shaders_released_whatever_the_link_status working_environment
              "void main() {}" "void main() {}" Hp Hv Hf)
    as (last_calls & Hcalls & Hrel & _).
  exists last_calls. split; [exact Hcalls | exact Hrel].
Defined.

(** C4.  Each factory checks the name it is given.  On the name 0 it throws
    a [runtime_error] with its own message, after the allocating call and
    nothing else (no handle is built, nothing is released, nothing is
    returned).  On any other name the buffer and the vertex-array factories
    return the handle that owns that name; so does the shader factory when
    the source compiles, and the program factory when both shaders are built
    and the program links (otherwise they throw). *)
Theorem factories_check_allocation (env : environment) :
  (if gen_buffer env =? 0
   then create_rectangle_buffer env
        = (Thrown (runtime_error "buffer generation error"), [glGenBuffers 1 0])
   else fst (create_rectangle_buffer env)
        = Normal (GLobject_new (gen_buffer env) (Some delete_buffer)))
  /\ (forall rectangle_buffer,
        if gen_vertex_array env =? 0
        then create_rectangle_vertex_array_object env rectangle_buffer
             = (Thrown (runtime_error "vertex array object generation error"),
                [glGenVertexArrays 1 0])
        else fst (create_rectangle_vertex_array_object env rectangle_buffer)
             = Normal (GLobject_new (gen_vertex_array env) (Some delete_vertex_array)))
  /\ (forall source shader_type,
        if created_shader env shader_type =? 0
        then create_shader env source shader_type
             = (Thrown (runtime_error "shader creation error"),
                [glCreateShader shader_type 0])
        else fst (create_shader env source shader_type)
             = if compile_status env (created_shader env shader_type) source =? GL_FALSE
               then Thrown (runtime_error "shader compilation error")
               else Normal (GLobject_new (created_shader env shader_type)
                              (Some delete_shader)))
  /\ (forall vertex_shader_source fragment_shader_source,
        if created_program env =? 0
        then create_shader_program env vertex_shader_source fragment_shader_source
             = (Thrown (runtime_error "shader program creation error"),
                [glCreateProgram 0])
        else if shader_ok env vertex_shader_source GL_VERTEX_SHADER
                && shader_ok env fragment_shader_source GL_FRAGMENT_SHADER
                && negb (link_status env =? GL_FALSE)
        then fst (create_shader_program env vertex_shader_source fragment_shader_source)
             = Normal (GLobject_new (created_program env) (Some delete_program))
        else exists message,
             fst (create_shader_program env vertex_shader_source fragment_shader_source)
             = Thrown (runtime_error message)).
Proof.
  split; [|split; [|split]].
  - rewrite create_rectangle_buffer_run. cbv zeta.
    destruct (gen_buffer env =? 0) eqn:E; [|reflexivity].
    apply Z.eqb_eq in E. rewrite E. reflexivity.
  - intros rectangle_buffer. rewrite create_rectangle_vertex_array_object_run. cbv zeta.
    destruct (gen_vertex_array env =? 0) eqn:E; [|reflexivity].
    apply Z.eqb_eq in E. rewrite E. reflexivity.
  - intros source shader_type. rewrite create_shader_run. cbv zeta.
    destruct (created_shader env shader_type =? 0) eqn:E.
    + apply Z.eqb_eq in E. rewrite E. reflexivity.
    + destruct (compile_status env (created_shader env shader_type) source =? GL_FALSE);
        reflexivity.
  - intros vertex_shader_source fragment_shader_source.
    destruct (created_program env =? 0) eqn:Ep.
    + unfold create_shader_program. rewrite Ep.
      apply Z.eqb_eq in Ep. rewrite Ep. reflexivity.
    + destruct (shader_ok env vertex_shader_source GL_VERTEX_SHADER) eqn:Hv.
      * destruct (shader_ok env fragment_shader_source GL_FRAGMENT_SHADER) eqn:Hf.
        -- apply Z.eqb_neq in Ep.
           rewrite (create_shader_program_run env _ _ Ep Hv Hf). cbv zeta.
           destruct (link_status env =? GL_FALSE); cbn; [eexists|]; reflexivity.
        -- cbn [andb]. unfold create_shader_program. rewrite Ep.
           rewrite (create_shader_ok env _ _ Hv).
           rewrite create_shader_run. cbv zeta. unfold shader_ok in Hf.
           destruct (created_shader env GL_FRAGMENT_SHADER =? 0);
             [cbn; eexists; reflexivity|].
           destruct (compile_status env (created_shader env GL_FRAGMENT_SHADER)
                       fragment_shader_source =? GL_FALSE);
             [cbn; eexists; reflexivity | discriminate Hf].
      * cbn [andb]. unfold create_shader_program. rewrite Ep.
        rewrite create_shader_run. cbv zeta. unfold shader_ok in Hv.
        destruct (created_shader env GL_VERTEX_SHADER =? 0);
          [cbn; eexists; reflexivity|].
        destruct (compile_status env (created_shader env GL_VERTEX_SHADER)
                    vertex_shader_source =? GL_FALSE);
          [cbn; eexists; reflexivity | discriminate Hv].
Qed.

(** ** The loop and [main] *)

Lemma poll_events_run (pending : list SDL_Event) (s : loop_state) :
  poll_events pending s =
    (Normal (handle_events pending s),
     map (fun event => SDL_PollEvent (Some event)) pending ++ [SDL_PollEvent None]).
Proof.
  revert s. induction pending as [|event pending IH]; intros s; [reflexivity|].
  cbn [poll_events]. rewrite IH. reflexivity.
Qed.

Lemma handle_events_running (pending : list SDL_Event) (s : loop_state) :
  running (handle_events pending s) = running s && negb (existsb is_quit pending).
Proof.
  revert s. induction pending as [|event pending IH]; intros s.
  - cbn. rewrite andb_true_r. reflexivity.
  - unfold handle_events in *. cbn [fold_left existsb]. rewrite IH.
    destruct event; cbn; [reflexivity | | reflexivity].
    rewrite andb_false_r. reflexivity.
Qed.

Lemma handle_events_view (pending : list SDL_Event) (s : loop_state) :
  the_view (handle_events pending s) = key_downs (scancodes_of pending) (the_view s).
Proof.
  revert s. induction pending as [|event pending IH]; intros s; [reflexivity|].
  unfold handle_events in *. cbn [fold_left]. rewrite IH.
  destruct event; reflexivity.
Qed.

Lemma iteration_run (shader_program vertex_array_object : GLuint)
    (pending : list SDL_Event) (s : loop_state) :
  iteration shader_program vertex_array_object pending s =
    (Normal (handle_events pending s),
     (map (fun event => SDL_PollEvent (Some event)) pending ++ [SDL_PollEvent None])
     ++ snd (draw shader_program vertex_array_object (the_view (handle_events pending s)))
     ++ [SDL_GL_SwapWindow; SDL_Delay 30]).
Proof.
  unfold iteration. rewrite poll_events_run. reflexivity.
Qed.

Lemma run_loop_outcome (shader_program vertex_array_object : GLuint)
    (frames : list (list SDL_Event)) (s : loop_state) :
  exists s' t,
    run_loop shader_program vertex_array_object frames s =
      (if negb (running s) || quits frames then Normal s' else OutOfInput, t).
Proof.
  revert s. induction frames as [|pending frames IH]; intros s.
  - cbn. destruct (running s); cbn; eauto.
  - cbn [run_loop]. destruct (running s) eqn:Hr; [|cbn; eauto].
    rewrite iteration_run. cbn [bind].
    destruct (IH (handle_events pending s)) as (s' & t & ->).
    rewrite handle_events_running, Hr. cbn [negb orb andb quits existsb].
    fold (quits frames).
    destruct (existsb is_quit pending); cbn; eauto.
Qed.

Lemma run_loop_not_running (shader_program vertex_array_object : GLuint)
    (frames : list (list SDL_Event)) (s : loop_state) :
  running s = false ->
  run_loop shader_program vertex_array_object frames s = ret s.
Proof. intros Hr. destruct frames; cbn [run_loop]; rewrite Hr; reflexivity. Qed.

Lemma key_down_of_another_key (scancode : SDL_Scancode) (v : view) :
  ~ In scancode
      [ SDL_SCANCODE_W; SDL_SCANCODE_S; SDL_SCANCODE_A; SDL_SCANCODE_D;
        SDL_SCANCODE_Z; SDL_SCANCODE_X; SDL_SCANCODE_R; SDL_SCANCODE_E ] ->
  key_down scancode v = v.
Proof.
  intros Hother.
  assert (H : forall k,
             In k [ SDL_SCANCODE_W; SDL_SCANCODE_S; SDL_SCANCODE_A; SDL_SCANCODE_D;
                    SDL_SCANCODE_Z; SDL_SCANCODE_X; SDL_SCANCODE_R; SDL_SCANCODE_E ] ->
             (scancode =? k) = false).
  { intros k Hk. apply Z.eqb_neq. intros ->. exact (Hother Hk). }
  destruct v as [n sc vx vy]. unfold key_down. cbn [max_iterations scale x y].
  rewrite !H by (cbn [In]; tauto). reflexivity.
Qed.

(** C8.  One iteration of the running loop, in the order of its calls:
    every pending event is polled and handled until the queue is empty;
    then the view that results is sent to the shader program (the window
    size, the horizontal bounds [-2 / scale + x] and [1 / scale + x], the
    vertical bounds [-1 / scale + y] and [1 / scale + y], the iteration
    count), one [glDrawArrays] of the six vertices is issued, the frame is
    presented and the delay of 30 ms follows.  Handling an event: a
    key-down of W, S, A, D, Z, X, R or E updates the view ([y], [x] by
    [0.1F / scale]; [scale] by [0.1F * scale]; the count by one, modulo
    [2^32] upwards and not below 0), a key-down of another key and an event
    of another type change nothing, a quit event clears [running].  The
    loop then runs its next iteration, unless a quit event was among the
    pending ones: in that case the loop is over once this iteration is
    done. *)
Theorem loop_iteration_sequence (shader_program vertex_array_object : GLuint)
    (v : view) (pending : list SDL_Event) (frames : list (list SDL_Event)) :
  let s := {| the_view := v; running := true |} in
  let s' := fold_left (fun s event => handle_event event s) pending s in
  let v' := the_view s' in
  iteration shader_program vertex_array_object pending s =
    (Normal s',
     map (fun event => SDL_PollEvent (Some event)) pending
     ++ [ SDL_PollEvent None;
          glUseProgram shader_program;
          glUniform1f 0 (Float32.of_Z 800);
          glUniform1f 1 (Float32.of_Z 600);
          glUniform2f 2
            (Float32.add (Float32.div Float32.m_two (scale v')) (x v'))
            (Float32.add (Float32.div Float32.one (scale v')) (x v'));
          glUniform2f 3
            (Float32.add (Float32.div Float32.m_one (scale v')) (y v'))
            (Float32.add (Float32.div Float32.one (scale v')) (y v'));
          glUniform1ui 4 (max_iterations v');
          glClear GL_COLOR_BUFFER_BIT;
          glBindVertexArray vertex_array_object;
          glDrawArrays GL_TRIANGLES 0 6;
          glBindVertexArray 0;
          glUseProgram 0;
          SDL_GL_SwapWindow;
          SDL_Delay 30 ])
  /\ (forall (u : view) (r : bool),
        let st := {| the_view := u; running := r |} in
        let move_delta := Float32.div Float32.tenth (scale u) in
        let zoom_delta := Float32.mul Float32.tenth (scale u) in
        let updated n sc vx vy :=
          {| the_view := {| max_iterations := n; scale := sc; x := vx; y := vy |};
             running := r |} in
        handle_event (SDL_KEYDOWN SDL_SCANCODE_W) st
          = updated (max_iterations u) (scale u) (x u) (Float32.add (y u) move_delta)
        /\ handle_event (SDL_KEYDOWN SDL_SCANCODE_S) st
          = updated (max_iterations u) (scale u) (x u) (Float32.sub (y u) move_delta)
        /\ handle_event (SDL_KEYDOWN SDL_SCANCODE_A) st
          = updated (max_iterations u) (scale u) (Float32.sub (x u) move_delta) (y u)
        /\ handle_event (SDL_KEYDOWN SDL_SCANCODE_D) st
          = updated (max_iterations u) (scale u) (Float32.add (x u) move_delta) (y u)
        /\ handle_event (SDL_KEYDOWN SDL_SCANCODE_Z) st
          = updated (max_iterations u) (Float32.add (scale u) zoom_delta) (x u) (y u)
        /\ handle_event (SDL_KEYDOWN SDL_SCANCODE_X) st
          = updated (max_iterations u) (Float32.sub (scale u) zoom_delta) (x u) (y u)
        /\ handle_event (SDL_KEYDOWN SDL_SCANCODE_R) st
          = updated ((max_iterations u + 1) mod 2 ^ 32) (scale u) (x u) (y u)
        /\ handle_event (SDL_KEYDOWN SDL_SCANCODE_E) st
          = updated (if max_iterations u >? 0
                     then (max_iterations u - 1) mod 2 ^ 32
                     else max_iterations u) (scale u) (x u) (y u)
        /\ (forall scancode,
              ~ In scancode
                  [ SDL_SCANCODE_W; SDL_SCANCODE_S; SDL_SCANCODE_A; SDL_SCANCODE_D;
                    SDL_SCANCODE_Z; SDL_SCANCODE_X; SDL_SCANCODE_R; SDL_SCANCODE_E ] ->
              handle_event (SDL_KEYDOWN scancode) st = st)
        /\ handle_event SDL_QUIT st = {| the_view := u; running := false |}
        /\ (forall type, handle_event (OtherEvent type) st = st))
  /\ v' = key_downs (scancodes_of pending) v
  /\ running s' = negb (existsb is_quit pending)
  /\ run_loop shader_program vertex_array_object (pending :: frames) s =
       (if existsb is_quit pending
        then iteration shader_program vertex_array_object pending s
        else (s'' <- iteration shader_program vertex_array_object pending s ;;
              run_loop shader_program vertex_array_object frames s''))
  /\ run_loop shader_program vertex_array_object frames
       {| the_view := v; running := false |}
     = (Normal {| the_view := v; running := false |}, []).
Proof.
  cbv zeta. fold (handle_events pending {| the_view := v; running := true |}).
  split; [|split; [|split; [|split; [|split]]]].
  - rewrite iteration_run. cbn [draw]. f_equal. rewrite <- app_assoc. reflexivity.
  - intros u r.
    repeat (split; [destruct u; reflexivity|]).
    split; [|split; [reflexivity | intros type; reflexivity]].
    intros scancode Hother. cbn [handle_event the_view running].
    rewrite (key_down_of_another_key scancode u Hother). reflexivity.
  - apply handle_events_view.
  - rewrite handle_events_running. reflexivity.
  - cbn [run_loop running].
    destruct (existsb is_quit pending) eqn:Hq; [|reflexivity].
    rewrite iteration_run. cbn [bind].
    rewrite run_loop_not_running
      by (rewrite handle_events_running, Hq; reflexivity).
    cbn [ret]. rewrite app_nil_r. reflexivity.
  - apply run_loop_not_running. reflexivity.
Qed.

Lemma create_shader_program_outcome (env : environment)
    (vertex_shader_source fragment_shader_source : string) :
  fst (create_shader_program env vertex_shader_source fragment_shader_source) =
    match program_failure env vertex_shader_source fragment_shader_source with
    | Some message => Thrown (runtime_error message)
    | None => Normal (GLobject_new (created_program env) (Some delete_program))
    end.
Proof.
  unfold create_shader_program, program_failure.
  destruct (created_program env =? 0) eqn:Ep; [reflexivity|].
  rewrite !create_shader_run. cbv zeta.
  destruct (created_shader env GL_VERTEX_SHADER =? 0) eqn:Ev; [reflexivity|].
  destruct (compile_status env (created_shader env GL_VERTEX_SHADER)
              vertex_shader_source =? GL_FALSE); [reflexivity|].
  destruct (created_shader env GL_FRAGMENT_SHADER =? 0) eqn:Ef; [reflexivity|].
  destruct (compile_status env (created_shader env GL_FRAGMENT_SHADER)
              fragment_shader_source =? GL_FALSE); [reflexivity|].
  destruct (link_status env =? GL_FALSE); reflexivity.
Qed.

Lemma try_block_outcome (env : environment) :
  fst (try_block env) =
    match resource_failure env with
    | Some message => Thrown (runtime_error message)
    | None => if quits (events env) then Normal tt else OutOfInput
    end.
Proof.
  unfold try_block, resource_failure.
  rewrite create_rectangle_buffer_run. cbv zeta.
  destruct (gen_buffer env =? 0); [reflexivity|].
  cbn [bind]. rewrite create_rectangle_vertex_array_object_run. cbv zeta.
  destruct (gen_vertex_array env =? 0); [reflexivity|].
  unfold read_file.
  destruct (files env !! "res/mandelbrot_shader.vs") as [vertex_shader_source|];
    [|reflexivity].
  destruct (files env !! "res/mandelbrot_shader.fs") as [fragment_shader_source|];
    [|reflexivity].
  cbn [bind ret].
  pose proof (create_shader_program_outcome env vertex_shader_source
                fragment_shader_source) as Hp.
  destruct (create_shader_program env vertex_shader_source fragment_shader_source)
    as [outcome t].
  cbn [fst] in Hp. subst outcome.
  destruct (program_failure env vertex_shader_source fragment_shader_source);
    [reflexivity|].
  cbn [bind ret scoped leave_scope].
  destruct (run_loop_outcome (to_GLuint (GLobject_new (created_program env) (Some delete_program)))
              (to_GLuint (GLobject_new (gen_vertex_array env) (Some delete_vertex_array)))
              (events env) {| the_view := initial_view; running := true |})
    as (s' & t' & ->).
  cbn [running negb orb].
  destruct (quits (events env)); reflexivity.
Qed.

(** C9.  [main] returns 0 or is still in its loop waiting for a quit
    event; it never ends otherwise.  Each failure of the taxonomy ends it
    with exit code 0 and with one line on standard error, the message of
    the failure; without a failure nothing is written, and [main] returns 0
    as soon as an iteration has met a quit event. *)
Theorem exit_code_is_zero (env : environment) :
  match failure env with
  | Some message => ended (main env) = Exit 0 /\ stderr (main env) = [message]
  | None =>
      stderr (main env) = []
      /\ ended (main env) = if quits (events env) then Exit 0 else AwaitingInput
  end
  /\ (forall code, ended (main env) = Exit code -> code = 0)
  /\ ended (main env) <> Abort.
Proof.
  unfold main, failure.
  destruct (init_result env >=? 0);
    [|split; [split; reflexivity | split; [intros code [= <-]; reflexivity | discriminate]]].
  destruct (window env);
    [|split; [split; reflexivity | split; [intros code [= <-]; reflexivity | discriminate]]].
  destruct (gl_context env);
    [|split; [split; reflexivity | split; [intros code [= <-]; reflexivity | discriminate]]].
  pose proof (try_block_outcome env) as Htry.
  destruct (try_block env) as [outcome t]. cbn [fst] in Htry. subst outcome.
  destruct (resource_failure env) as [message|].
  - split; [split; reflexivity | split; [intros code [= <-]; reflexivity | discriminate]].
  - destruct (quits (events env)).
    + split; [split; reflexivity | split; [intros code [= <-]; reflexivity | discriminate]].
    + split; [split; reflexivity | split; [intros code [=] | discriminate]].
Qed.

(** ** Nothing is left allocated *)

Lemma outstanding_app (live : list resource) (t1 t2 : trace) :
  outstanding live (t1 ++ t2) = outstanding (outstanding live t1) t2.
Proof.
  revert live. induction t1 as [|c t1 IH]; intros live; [reflexivity|].
  cbn [app outstanding].
  destruct (allocated_by c); [apply IH|]. destruct (released_by c); apply IH.
Qed.

Lemma outstanding_neutral (live : list resource) (t : trace) :
  forallb neutral t = true -> outstanding live t = live.
Proof.
  induction t as [|c t IH]; intros H; [reflexivity|].
  cbn [forallb] in H. apply andb_true_iff in H. destruct H as [Hc Ht].
  cbn [outstanding]. unfold neutral in Hc.
  destruct (allocated_by c); [discriminate|].
  destruct (released_by c); [discriminate|]. apply IH. exact Ht.
Qed.

Lemma run_loop_neutral (shader_program vertex_array_object : GLuint)
    (frames : list (list SDL_Event)) (s : loop_state) :
  forallb neutral (snd (run_loop shader_program vertex_array_object frames s)) = true.
Proof.
  revert s. induction frames as [|pending frames IH]; intros s.
  - cbn. destruct (running s); reflexivity.
  - cbn [run_loop]. destruct (running s); [|reflexivity].
    rewrite iteration_run. cbn [bind].
    specialize (IH (handle_events pending s)).
    destruct (run_loop shader_program vertex_array_object frames
                (handle_events pending s)) as [r t].
    cbn [snd] in *. rewrite !forallb_app. rewrite IH.
    rewrite andb_true_r. apply andb_true_iff. split; [|reflexivity].
    apply andb_true_iff. split; [|reflexivity].
    clear. induction pending as [|e pending IH]; [reflexivity|exact IH].
Qed.

Lemma try_block_balanced (env : environment) (live : list resource) :
  match fst (try_block env) with
  | Normal _ | Thrown _ => outstanding live (snd (try_block env)) = live
  | Terminated | OutOfInput => True
  end.
Proof.
  unfold try_block.
  rewrite create_rectangle_buffer_run. cbv zeta.
  destruct (gen_buffer env =? 0) eqn:Eb; [cbn; rewrite Eb; reflexivity|].
  cbn [bind]. rewrite create_rectangle_vertex_array_object_run. cbv zeta.
  destruct (gen_vertex_array env =? 0) eqn:Ea; [settle_names; reflexivity|].
  unfold read_file.
  destruct (files env !! "res/mandelbrot_shader.vs") as [vertex_shader_source|];
    [|settle_names; reflexivity].
  destruct (files env !! "res/mandelbrot_shader.fs") as [fragment_shader_source|];
    [|settle_names; reflexivity].
  cbn [bind ret].
  pose proof (create_shader_program_balanced env vertex_shader_source
                fragment_shader_source) as Hp.
  pose proof (create_shader_program_outcome env vertex_shader_source
                fragment_shader_source) as Ho.
  destruct (create_shader_program env vertex_shader_source fragment_shader_source)
    as [outcome t].
  cbn [fst snd] in Hp, Ho. subst outcome.
  destruct (program_failure env vertex_shader_source fragment_shader_source).
  - settle_names. rewrite !outstanding_app, Hp. settle_names. reflexivity.
  - cbn [bind ret scoped leave_scope].
    pose proof (run_loop_neutral
                  (to_GLuint (GLobject_new (created_program env) (Some delete_program)))
                  (to_GLuint (GLobject_new (gen_vertex_array env)
                                (Some delete_vertex_array)))
                  (events env) {| the_view := initial_view; running := true |}) as Hn.
    destruct (run_loop _ _ (events env) _) as [[s'| | |] t']; cbn [snd] in Hn.
    + settle_names. rewrite !outstanding_app, Hp. cbn [index GLobject_new].
      rewrite (outstanding_neutral _ _ Hn). settle_names. reflexivity.
    + settle_names. rewrite !outstanding_app, Hp. cbn [index GLobject_new].
      rewrite (outstanding_neutral _ _ Hn). settle_names. reflexivity.
    + exact I.
    + exact I.
Qed.


(** X1.  Whenever [main] returns, every resource that was allocated along the
    way has been released: each call that produced a name other than 0 is
    matched by the call of its release function. *)
Theorem nothing_left_allocated (env : environment) (code : Z) :
  ended (main env) = Exit code ->
  outstanding [] (calls (main env)) = [].
Proof.
  unfold main.
  destruct (init_result env >=? 0); [|reflexivity].
  destruct (window env); [|reflexivity].
  destruct (gl_context env); [|reflexivity].
  pose proof (try_block_balanced env []) as Hb.
  destruct (try_block env) as [[u|ex| |] t]; cbn [fst snd] in Hb;
    cbn [ended calls]; intros Hcode; try discriminate Hcode;
    cbn [app outstanding allocated_by released_by];
    rewrite outstanding_app, Hb; reflexivity.
Qed.

Lemma nothing_left_allocated_witness :
  ended (main working_environment) = Exit 0
  /\ outstanding [] (calls (main working_environment)) = [].
Proof.
  assert (H : ended (main working_environment) = Exit 0) by reflexivity.
  split; [exact H|]. exact (nothing_left_allocated working_environment 0 H).
Defined.

(** ** More on the factories *)

Lemma create_shader_program_calls (env : environment)
    (vertex_shader_source fragment_shader_source : string) :
  create_shader_program env vertex_shader_source fragment_shader_source =
    let shader_program := created_program env in
    let vertex_shader := created_shader env GL_VERTEX_SHADER in
    let fragment_shader := created_shader env GL_FRAGMENT_SHADER in
    if shader_program =? 0
    then (Thrown (runtime_error "shader program creation error"),
          [glCreateProgram shader_program])
    else if negb (shader_ok env vertex_shader_source GL_VERTEX_SHADER)
    then (match fst (create_shader env vertex_shader_source GL_VERTEX_SHADER) with
          | Thrown e => Thrown e
          | _ => Terminated
          end,
          [glCreateProgram shader_program]
          ++ snd (create_shader env vertex_shader_source GL_VERTEX_SHADER)
          ++ [glDeleteProgram shader_program])
    else if negb (shader_ok env fragment_shader_source GL_FRAGMENT_SHADER)
    then (match fst (create_shader env fragment_shader_source GL_FRAGMENT_SHADER) with
          | Thrown e => Thrown e
          | _ => Terminated
          end,
          [glCreateProgram shader_program]
          ++ shader_calls env vertex_shader_source GL_VERTEX_SHADER
          ++ snd (create_shader env fragment_shader_source GL_FRAGMENT_SHADER)
          ++ [glDeleteShader vertex_shader; glDeleteProgram shader_program])
    else if link_status env =? GL_FALSE
    then (Thrown (runtime_error "failed to link shader program"),
          link_calls env vertex_shader_source fragment_shader_source
          ++ [ glDeleteShader fragment_shader;
               glDeleteShader vertex_shader;
               glDeleteProgram shader_program ])
    else (Normal (GLobject_new shader_program (Some delete_program)),
          link_calls env vertex_shader_source fragment_shader_source
          ++ [ glDetachShader shader_program vertex_shader;
               glDetachShader shader_program fragment_shader;
               glDeleteShader fragment_shader;
               glDeleteShader vertex_shader ]).
Proof.
  cbv zeta.
  destruct (created_program env =? 0) eqn:Ep;
    [unfold create_shader_program; rewrite Ep; reflexivity|].
  destruct (shader_ok env vertex_shader_source GL_VERTEX_SHADER) eqn:Hv; cbn [negb].
  - destruct (shader_ok env fragment_shader_source GL_FRAGMENT_SHADER) eqn:Hf; cbn [negb].
    + apply Z.eqb_neq in Ep.
      exact (create_shader_program_run env _ _ Ep Hv Hf).
    + unfold create_shader_program. rewrite Ep.
      rewrite (create_shader_ok env _ _ Hv).
      rewrite create_shader_run. cbv zeta. unfold shader_ok in Hf.
      destruct (created_shader env GL_FRAGMENT_SHADER =? 0); [reflexivity|].
      destruct (compile_status env (created_shader env GL_FRAGMENT_SHADER)
                  fragment_shader_source =? GL_FALSE);
        [reflexivity | discriminate Hf].
  - unfold create_shader_program. rewrite Ep.
    rewrite create_shader_run. cbv zeta. unfold shader_ok in Hv.
    destruct (created_shader env GL_VERTEX_SHADER =? 0); [reflexivity|].
    destruct (compile_status env (created_shader env GL_VERTEX_SHADER)
                vertex_shader_source =? GL_FALSE);
      [reflexivity | discriminate Hv].
Qed.

(** ** The whole run, piece by piece *)

Lemma try_block_run (env : environment) :
  try_block env =
    let buffer := gen_buffer env in
    let vertex_array_object := gen_vertex_array env in
    let unwound := [glDeleteVertexArrays 1 vertex_array_object; glDeleteBuffers 1 buffer] in
    if buffer =? 0
    then (Thrown (runtime_error "buffer generation error"), [glGenBuffers 1 buffer])
    else if vertex_array_object =? 0
    then (Thrown (runtime_error "vertex array object generation error"),
          buffer_calls env
          ++ [glGenVertexArrays 1 vertex_array_object; glDeleteBuffers 1 buffer])
    else
      match files env !! "res/mandelbrot_shader.vs",
            files env !! "res/mandelbrot_shader.fs" with
      | Some vertex_shader_source, Some fragment_shader_source =>
          let made :=
            create_shader_program env vertex_shader_source fragment_shader_source in
          match program_failure env vertex_shader_source fragment_shader_source with
          | Some message =>
              (Thrown (runtime_error message),
               buffer_calls env ++ vertex_array_calls env ++ snd made ++ unwound)
          | None =>
              let looped :=
                run_loop (created_program env) vertex_array_object (events env)
                  first_state in
              if quits (events env)
              then (Normal tt,
                    buffer_calls env ++ vertex_array_calls env ++ snd made
                    ++ snd looped ++ glDeleteProgram (created_program env) :: unwound)
              else (OutOfInput,
                    buffer_calls env ++ vertex_array_calls env ++ snd made
                    ++ snd looped)
          end
      | _, _ =>
          (Thrown (runtime_error "file reading error"),
           buffer_calls env ++ vertex_array_calls env ++ unwound)
      end.
Proof.
  cbv zeta. unfold try_block.
  rewrite create_rectangle_buffer_run. cbv zeta.
  destruct (gen_buffer env =? 0); [reflexivity|].
  cbn [bind]. rewrite create_rectangle_vertex_array_object_run. cbv zeta.
  destruct (gen_vertex_array env =? 0); [reflexivity|].
  unfold read_file.
  destruct (files env !! "res/mandelbrot_shader.vs") as [vertex_shader_source|];
    [|reflexivity].
  destruct (files env !! "res/mandelbrot_shader.fs") as [fragment_shader_source|];
    [|reflexivity].
  cbn [bind ret].
  pose proof (create_shader_program_outcome env vertex_shader_source
                fragment_shader_source) as Ho.
  destruct (create_shader_program env vertex_shader_source fragment_shader_source)
    as [outcome t].
  cbn [fst snd] in *. subst outcome.
  destruct (program_failure env vertex_shader_source fragment_shader_source).
  - cbn. unfold buffer_calls, vertex_array_calls. cbn.
    rewrite <- !app_assoc. reflexivity.
  - cbn [bind ret scoped leave_scope to_GLuint index GLobject_new].
    destruct (run_loop_outcome (created_program env) (gen_vertex_array env)
                (events env) first_state) as (s' & t' & E).
    unfold first_state in *. rewrite E. cbn [running negb orb snd].
    destruct (quits (events env)); cbn; unfold buffer_calls, vertex_array_calls; cbn;
      rewrite <- ?app_assoc; cbn; rewrite ?app_nil_r; reflexivity.
Qed.

Lemma handle_events_invariant (I : loop_state -> Prop) :
  (forall event s, I s -> I (handle_event event s)) ->
  forall pending s, I s -> I (handle_events pending s).
Proof.
  intros Hstep pending. unfold handle_events.
  induction pending as [|event pending IH]; intros s Hs; [exact Hs|].
  cbn [fold_left]. apply IH. apply Hstep. exact Hs.
Qed.

(** A property of single calls holds of all the calls of the loop when it
    holds of the polls, of the swap, of the delay, and of the calls that
    draw the views the loop can reach. *)
Lemma run_loop_forall (P : api_call -> bool) (I : loop_state -> Prop)
    (shader_program vertex_array_object : GLuint) :
  (forall event s, I s -> I (handle_event event s)) ->
  (forall polled, P (SDL_PollEvent polled) = true) ->
  (forall s, I s ->
     forallb P (snd (draw shader_program vertex_array_object (the_view s))) = true) ->
  P SDL_GL_SwapWindow = true ->
  P (SDL_Delay 30) = true ->
  forall frames s, I s ->
    forallb P (snd (run_loop shader_program vertex_array_object frames s)) = true.
Proof.
  intros Hstep Hpoll Hdraw Hswap Hdelay frames.
  induction frames as [|pending frames IH]; intros s Hs.
  - cbn. destruct (running s); reflexivity.
  - cbn [run_loop]. destruct (running s); [|reflexivity].
    rewrite iteration_run. cbn [bind].
    assert (Hs' : I (handle_events pending s))
      by (apply handle_events_invariant; assumption).
    specialize (IH _ Hs').
    destruct (run_loop shader_program vertex_array_object frames
                (handle_events pending s)) as [r t].
    cbn [snd] in *. rewrite !forallb_app, IH, (Hdraw _ Hs').
    cbn [forallb]. rewrite Hswap, Hdelay, (Hpoll None). cbn [andb].
    rewrite !andb_true_r.
    clear -Hpoll. induction pending as [|e pending IH]; [reflexivity|].
    cbn [map forallb]. rewrite Hpoll. exact IH.
Qed.

Lemma run_loop_forall_simple (P : api_call -> bool)
    (shader_program vertex_array_object : GLuint) :
  (forall polled, P (SDL_PollEvent polled) = true) ->
  (forall v, forallb P (snd (draw shader_program vertex_array_object v)) = true) ->
  P SDL_GL_SwapWindow = true ->
  P (SDL_Delay 30) = true ->
  forall frames s,
    forallb P (snd (run_loop shader_program vertex_array_object frames s)) = true.
Proof.
  intros Hpoll Hdraw Hswap Hdelay frames s.
  apply (run_loop_forall P (fun _ => True)); auto.
Qed.

(** ** Last acquired, first given up *)

Lemma nested_app (held : list holding) (t1 t2 : trace) :
  nested held (t1 ++ t2) =
    match nested held t1 with
    | Some held' => nested held' t2
    | None => None
    end.
Proof.
  revert held. induction t1 as [|c t1 IH]; intros held; [reflexivity|].
  cbn [app nested].
  destruct (acquired_by c); [apply IH|].
  destruct (given_up_by c); [|apply IH].
  destruct held as [|h' held']; [reflexivity|].
  destruct (holding_eqb h h'); [apply IH | reflexivity].
Qed.

Lemma nested_holds_nothing (held : list holding) (t : trace) :
  forallb holds_nothing t = true -> nested held t = Some held.
Proof.
  induction t as [|c t IH]; intros H; [reflexivity|].
  cbn [forallb] in H. apply andb_true_iff in H. destruct H as [Hc Ht].
  cbn [nested]. unfold holds_nothing in Hc.
  destruct (acquired_by c); [discriminate|].
  destruct (given_up_by c); [discriminate|]. apply IH. exact Ht.
Qed.

Lemma run_loop_holds_nothing (shader_program vertex_array_object : GLuint)
    (frames : list (list SDL_Event)) (s : loop_state) :
  forallb holds_nothing
    (snd (run_loop shader_program vertex_array_object frames s)) = true.
Proof. apply run_loop_forall_simple; reflexivity. Qed.

Lemma create_shader_program_nested (env : environment)
    (vertex_shader_source fragment_shader_source : string) (held : list holding) :
  nested held
    (snd (create_shader_program env vertex_shader_source fragment_shader_source)) =
    Some match program_failure env vertex_shader_source fragment_shader_source with
         | Some _ => held
         | None => Resource (delete_program, created_program env) :: held
         end.
Proof.
  unfold create_shader_program, program_failure.
  destruct (created_program env =? 0) eqn:Ep; [cbn; rewrite Ep; reflexivity|].
  rewrite !create_shader_run. cbv zeta. unfold shader_calls.
  destruct (created_shader env GL_VERTEX_SHADER =? 0) eqn:Ev;
    [settle_names; reflexivity|].
  destruct (compile_status env (created_shader env GL_VERTEX_SHADER)
              vertex_shader_source =? GL_FALSE);
    [settle_names; reflexivity|].
  destruct (created_shader env GL_FRAGMENT_SHADER =? 0) eqn:Ef;
    [settle_names; reflexivity|].
  destruct (compile_status env (created_shader env GL_FRAGMENT_SHADER)
              fragment_shader_source =? GL_FALSE);
    [settle_names; reflexivity|].
  destruct (link_status env =? GL_FALSE); settle_names; reflexivity.
Qed.

(** The case analysis of [main]: the three SDL steps, then the steps of
    the [try] block. *)
Ltac main_cases env :=
  unfold main;
  destruct (init_result env >=? 0) eqn:Einit;
  [ destruct (window env) eqn:Ewindow;
    [ destruct (gl_context env) eqn:Econtext;
      [ rewrite (try_block_run env); cbv zeta;
        destruct (gen_buffer env =? 0) eqn:Ebuffer;
        [ | destruct (gen_vertex_array env =? 0) eqn:Earray;
            [ | destruct (files env !! "res/mandelbrot_shader.vs")
                  as [vertex_shader_source|] eqn:Evs;
                [ destruct (files env !! "res/mandelbrot_shader.fs")
                    as [fragment_shader_source|] eqn:Efs;
                  [ destruct (program_failure env vertex_shader_source
                                fragment_shader_source) as [message|] eqn:Eprogram;
                    [ | destruct (quits (events env)) eqn:Equits ]
                  | ]
                | ] ] ]
      | ]
    | ]
  | ];
  cbn [ended stderr calls].

(** X3.  In every run in which [main] returns, what is acquired is given
    up in the reverse order: the video subsystem, the window, the context,
    the buffer, the vertex array, the program and, inside the program
    factory, the two shaders; each call that gives something up gives up the
    most recent acquisition that is still held, and at the end nothing is
    held.  This holds after every failure as well as after a quit. *)
Theorem acquisitions_are_nested (env : environment) (code : Z) :
  ended (main env) = Exit code ->
  nested [] (calls (main env)) = Some [].
Proof.
  main_cases env; intros Hcode; try discriminate Hcode;
    unfold buffer_calls, vertex_array_calls;
    cbn [app nested acquired_by given_up_by allocated_by released_by option_map];
    rewrite ?Einit, ?Ebuffer, ?Earray;
    cbn [app nested acquired_by given_up_by allocated_by released_by option_map
         holding_eqb resource_eqb callable_eqb fst snd andb];
    rewrite ?Z.eqb_refl; try reflexivity.
  - rewrite <- !app_assoc.
    rewrite nested_app, create_shader_program_nested, Eprogram.
    cbn. rewrite ?Z.eqb_refl. reflexivity.
  - rewrite <- !app_assoc.
    rewrite nested_app, create_shader_program_nested, Eprogram.
    rewrite nested_app, (nested_holds_nothing _ _ (run_loop_holds_nothing _ _ _ _)).
    cbn. rewrite ?Z.eqb_refl. cbn. rewrite ?Z.eqb_refl. reflexivity.
Qed.

Lemma acquisitions_are_nested_witness :
  ended (main working_environment) = Exit 0
  /\ nested [] (calls (main working_environment)) = Some [].
Proof.
  assert (H : ended (main working_environment) = Exit 0) by reflexivity.
  split; [exact H|]. exact (acquisitions_are_nested working_environment 0 H).
Defined.

(** [nested] does refuse a release out of turn. *)
Example nested_refuses :
  nested [] [glGenBuffers 1 1; glGenVertexArrays 1 2; glDeleteBuffers 1 1] = None.
Proof. reflexivity. Qed.

(** The cases of [create_shader_program]. *)
Ltac program_cases env vertex_shader_source fragment_shader_source :=
  rewrite (create_shader_program_calls env vertex_shader_source fragment_shader_source);
  cbv zeta; rewrite !create_shader_run; cbv zeta;
  unfold shader_ok, link_calls, shader_calls;
  destruct (created_program env =? 0) eqn:Ep;
  destruct (created_shader env GL_VERTEX_SHADER =? 0) eqn:Ev;
  destruct (compile_status env (created_shader env GL_VERTEX_SHADER)
              vertex_shader_source =? GL_FALSE) eqn:Ecv;
  destruct (created_shader env GL_FRAGMENT_SHADER =? 0) eqn:Ef;
  destruct (compile_status env (created_shader env GL_FRAGMENT_SHADER)
              fragment_shader_source =? GL_FALSE) eqn:Ecf;
  destruct (link_status env =? GL_FALSE) eqn:El;
  cbn [negb andb fst snd app].

Lemma create_shader_program_forall (P : api_call -> bool) (env : environment)
    (vertex_shader_source fragment_shader_source : string) :
  (forall c, is_SDL_call c = false -> is_loop_call c = false ->
             binding_free c = true -> P c = true) ->
  forallb P
    (snd (create_shader_program env vertex_shader_source fragment_shader_source)) = true.
Proof.
  intros HP.
  program_cases env vertex_shader_source fragment_shader_source;
    cbn [forallb]; rewrite ?HP by reflexivity; reflexivity.
Qed.

(** ** OpenGL only with a context *)

Lemma context_respected_app (t1 t2 : trace) :
  forallb keeps_context t1 = true ->
  context_respected true (t1 ++ t2) = context_respected true t2.
Proof.
  induction t1 as [|c t1 IH]; intros H; [reflexivity|].
  cbn [forallb] in H. apply andb_true_iff in H. destruct H as [Hc Ht].
  specialize (IH Ht).
  destruct c; try discriminate Hc; cbn [app context_respected is_SDL_call orb andb];
    rewrite ?orb_true_r; exact IH.
Qed.

Lemma context_respected_all (t : trace) :
  forallb keeps_context t = true -> context_respected true t = true.
Proof.
  intros H. rewrite <- (app_nil_r t). rewrite context_respected_app by exact H.
  reflexivity.
Qed.

Lemma run_loop_keeps_context (shader_program vertex_array_object : GLuint)
    (frames : list (list SDL_Event)) (s : loop_state) :
  forallb keeps_context
    (snd (run_loop shader_program vertex_array_object frames s)) = true.
Proof. apply run_loop_forall_simple; reflexivity. Qed.

(** X4.  [main] makes an OpenGL call (or [glewInit], or the buffer swap)
    only between a successful [SDL_GL_CreateContext] and
    [SDL_GL_DeleteContext]: never without a context, whatever SDL and OpenGL
    answer and however long the loop runs. *)
Theorem opengl_only_with_a_context (env : environment) :
  context_respected false (calls (main env)) = true.
Proof.
  main_cases env; unfold buffer_calls, vertex_array_calls;
    cbn [app context_respected is_SDL_call orb andb]; try reflexivity;
    rewrite <- ?app_assoc;
    rewrite context_respected_app
      by (apply create_shader_program_forall; intros [] ? ? ?;
          (reflexivity || discriminate));
    try rewrite context_respected_app by apply run_loop_keeps_context;
    try rewrite context_respected_all by apply run_loop_keeps_context;
    reflexivity.
Qed.

(** [context_respected] does refuse an OpenGL call made without a
    context. *)
Example context_respected_refuses :
  context_respected false [SDL_GL_CreateContext false; glewInit; glClear 0] = false
  /\ context_respected false
       [SDL_GL_CreateContext true; SDL_GL_DeleteContext; glClear 0] = false.
Proof. split; reflexivity. Qed.

(** ** Bindings *)

Lemma bindings_app (b : bound) (t1 t2 : trace) :
  bindings b (t1 ++ t2) =
    match bindings b t1 with
    | Some b' => bindings b' t2
    | None => None
    end.
Proof.
  revert b. induction t1 as [|c t1 IH]; intros b; [reflexivity|].
  cbn [app]. destruct c; cbn [bindings];
    repeat match goal with
      | |- context [if ?x then _ else _] => destruct x
      end; (reflexivity || apply IH).
Qed.

Lemma bindings_free (b : bound) (t : trace) :
  forallb binding_free t = true -> bindings b t = Some b.
Proof.
  induction t as [|c t IH]; intros H; [reflexivity|].
  cbn [forallb] in H. apply andb_true_iff in H. destruct H as [Hc Ht].
  destruct c; try discriminate Hc; cbn [bindings]; apply IH; exact Ht.
Qed.

Lemma draw_bindings (shader_program vertex_array_object : GLuint) (v : view) :
  shader_program <> 0 -> vertex_array_object <> 0 ->
  bindings nothing_bound (snd (draw shader_program vertex_array_object v))
    = Some nothing_bound.
Proof.
  intros Hp Ha. apply Z.eqb_neq in Hp, Ha.
  cbn. rewrite Hp. cbn. rewrite Ha. reflexivity.
Qed.

Lemma run_loop_bindings (shader_program vertex_array_object : GLuint)
    (frames : list (list SDL_Event)) (s : loop_state) :
  shader_program <> 0 -> vertex_array_object <> 0 ->
  bindings nothing_bound (snd (run_loop shader_program vertex_array_object frames s))
    = Some nothing_bound.
Proof.
  intros Hp Ha. revert s. induction frames as [|pending frames IH]; intros s.
  - cbn. destruct (running s); reflexivity.
  - cbn [run_loop]. destruct (running s); [|reflexivity].
    rewrite iteration_run. cbn [bind].
    specialize (IH (handle_events pending s)).
    destruct (run_loop shader_program vertex_array_object frames
                (handle_events pending s)) as [r t].
    cbn [snd] in *. rewrite <- !app_assoc.
    rewrite bindings_app, bindings_free.
    + cbn [app bindings]. rewrite bindings_app, (draw_bindings _ _ _ Hp Ha).
      cbn [app bindings]. exact IH.
    + clear. induction pending as [|e pending IH]; [reflexivity | exact IH].
Qed.

Lemma program_failure_none (env : environment)
    (vertex_shader_source fragment_shader_source : string) :
  program_failure env vertex_shader_source fragment_shader_source = None ->
  created_program env <> 0
  /\ shader_ok env vertex_shader_source GL_VERTEX_SHADER = true
  /\ shader_ok env fragment_shader_source GL_FRAGMENT_SHADER = true
  /\ (link_status env =? GL_FALSE) = false.
Proof.
  unfold program_failure, shader_ok.
  destruct (created_program env =? 0) eqn:Ep; [discriminate|].
  destruct (created_shader env GL_VERTEX_SHADER =? 0); [discriminate|].
  destruct (compile_status env (created_shader env GL_VERTEX_SHADER)
              vertex_shader_source =? GL_FALSE); [discriminate|].
  destruct (created_shader env GL_FRAGMENT_SHADER =? 0); [discriminate|].
  destruct (compile_status env (created_shader env GL_FRAGMENT_SHADER)
              fragment_shader_source =? GL_FALSE); [discriminate|].
  destruct (link_status env =? GL_FALSE); [discriminate|].
  intros _. apply Z.eqb_neq in Ep. repeat split. exact Ep.
Qed.

(** X5.  Whatever the environment answers, [main] never uploads buffer data
    with no buffer bound, never sets up a vertex attribute with no vertex
    array or no buffer bound, never sets a uniform with no program in use,
    never draws with no program in use or no vertex array bound; and after
    its last call no buffer, vertex array or program is left bound.  (The
    names it binds are not 0 because the factories refuse the name 0.) *)
Theorem bindings_are_respected (env : environment) :
  bindings nothing_bound (calls (main env)) = Some nothing_bound.
Proof.
  main_cases env; unfold buffer_calls, vertex_array_calls;
    cbn [app bindings]; try reflexivity;
    change (GL_ARRAY_BUFFER =? GL_ARRAY_BUFFER) with true; cbv iota;
    cbn [array_buffer vertex_array program_in_use nothing_bound orb];
    rewrite ?Ebuffer, ?Earray; cbn [orb]; try reflexivity;
    rewrite <- ?app_assoc;
    (rewrite bindings_app, bindings_free
       by (apply create_shader_program_forall; intros [] ? ? ?;
           (reflexivity || discriminate)));
    try reflexivity.
  - destruct (program_failure_none _ _ _ Eprogram) as (Hp & _).
    apply Z.eqb_neq in Earray.
    rewrite bindings_app.
    change {| array_buffer := 0; vertex_array := 0; program_in_use := 0 |}
      with nothing_bound.
    rewrite (run_loop_bindings _ _ _ _ Hp Earray). reflexivity.
  - destruct (program_failure_none _ _ _ Eprogram) as (Hp & _).
    apply Z.eqb_neq in Earray.
    change {| array_buffer := 0; vertex_array := 0; program_in_use := 0 |}
      with nothing_bound.
    apply (run_loop_bindings _ _ _ _ Hp Earray).
Qed.

(** [bindings] does refuse a draw with nothing bound. *)
Example bindings_refuses :
  bindings nothing_bound [glUseProgram 5; glDrawArrays GL_TRIANGLES 0 6] = None.
Proof. reflexivity. Qed.

(** ** The loop after a failure, and what the loop uploads *)

(** X6.  After a failure of any step (SDL, a factory, a shader file) the
    loop is never entered: [main] polls no event, sets no uniform, clears
    and draws nothing, swaps no buffer and does not sleep. *)
Theorem no_frame_after_a_failure (env : environment) (line : string) :
  failure env = Some line ->
  forallb not_loop_call (calls (main env)) = true.
Proof.
  intros Hfail. unfold failure, resource_failure in Hfail. revert Hfail.
  main_cases env; rewrite ?Ebuffer, ?Earray, ?Evs, ?Efs, ?Eprogram;
    intros Hfail; try discriminate Hfail;
    unfold buffer_calls, vertex_array_calls;
    rewrite ?forallb_app; cbn [forallb not_loop_call is_loop_call negb andb];
    try reflexivity.
  rewrite create_shader_program_forall; [reflexivity|].
  intros c _ Hc _. unfold not_loop_call. rewrite Hc. reflexivity.
Qed.

Lemma no_frame_after_a_failure_witness :
  let env :=
    {| init_result := 0; window := true; gl_context := true; error_text := "";
       files := ∅; gen_buffer := 1; gen_vertex_array := 2;
       created_shader := fun _ => 3; compile_status := fun _ _ => GL_TRUE;
       created_program := 5; link_status := GL_TRUE;
       events := [[SDL_QUIT]] |} in
  failure env = Some "file reading error"
  /\ forallb not_loop_call (calls (main env)) = true.
Proof.
  cbv zeta.
  assert (H : failure
                {| init_result := 0; window := true; gl_context := true;
                   error_text := ""; files := ∅; gen_buffer := 1;
                   gen_vertex_array := 2; created_shader := fun _ => 3;
                   compile_status := fun _ _ => GL_TRUE; created_program := 5;
                   link_status := GL_TRUE; events := [[SDL_QUIT]] |}
              = Some "file reading error") by reflexivity.
  split; [exact H|]. exact (no_frame_after_a_failure _ _ H).
Defined.

Lemma iterations_upload_ok_range (n : Z) :
  unsigned_range n -> iterations_upload_ok (glUniform1ui 4 n) = true.
Proof.
  unfold unsigned_range, iterations_upload_ok. intros [Hlo Hhi].
  apply Z.leb_le in Hlo. apply Z.ltb_lt in Hhi. rewrite Hlo, Hhi. reflexivity.
Qed.

Lemma run_loop_iterations_upload (shader_program vertex_array_object : GLuint)
    (frames : list (list SDL_Event)) (s : loop_state) :
  unsigned_range (max_iterations (the_view s)) ->
  forallb iterations_upload_ok
    (snd (run_loop shader_program vertex_array_object frames s)) = true.
Proof.
  apply (run_loop_forall iterations_upload_ok
           (fun s => unsigned_range (max_iterations (the_view s)))).
  - intros [scancode| |type] s' Hs'; cbn [handle_event the_view]; try exact Hs'.
    apply key_down_range. exact Hs'.
  - reflexivity.
  - intros s' Hs'. pose proof (iterations_upload_ok_range _ Hs') as Hok.
    cbn in Hok |- *. rewrite Hok. reflexivity.
  - reflexivity.
  - reflexivity.
Qed.

(** X7.  Every iteration count that [main] uploads goes to location 4 and
    lies in the range of [unsigned], [0 .. 2^32 - 1], in every frame and for
    every sequence of events. *)
Theorem iterations_upload_in_range (env : environment) :
  forallb iterations_upload_ok (calls (main env)) = true.
Proof.
  assert (Hloop : forall shader_program vertex_array_object,
             forallb iterations_upload_ok
               (snd (run_loop shader_program vertex_array_object (events env)
                       first_state)) = true).
  { intros. apply run_loop_iterations_upload. unfold unsigned_range. cbn. lia. }
  assert (Hprogram : forall vertex_shader_source fragment_shader_source,
             forallb iterations_upload_ok
               (snd (create_shader_program env vertex_shader_source
                       fragment_shader_source)) = true).
  { intros. apply create_shader_program_forall.
    intros [] ? ? ?; (reflexivity || discriminate). }
  main_cases env; unfold buffer_calls, vertex_array_calls;
    rewrite ?forallb_app, ?Hloop, ?Hprogram; reflexivity.
Qed.

(** ** The factories own what they return *)

(** X2.  Each of the four factories, in every environment, either returns
    a handle whose name is not 0 and whose deleter is the release function
    of what it allocated, that name being the one resource it has added to
    those outstanding; or throws, having added none (a shader whose
    compilation fails is deleted before the exception leaves the factory).
    No factory returns a handle with the name 0 or with an empty deleter. *)
Theorem factories_own_what_they_return (env : environment) (live : list resource) :
  owns_what_it_returns delete_buffer live (create_rectangle_buffer env)
  /\ (forall rectangle_buffer,
        owns_what_it_returns delete_vertex_array live
          (create_rectangle_vertex_array_object env rectangle_buffer))
  /\ (forall source shader_type,
        owns_what_it_returns delete_shader live (create_shader env source shader_type))
  /\ (forall vertex_shader_source fragment_shader_source,
        owns_what_it_returns delete_program live
          (create_shader_program env vertex_shader_source fragment_shader_source)).
Proof.
  unfold owns_what_it_returns. split; [|split; [|split]].
  - rewrite create_rectangle_buffer_run. cbv zeta.
    destruct (gen_buffer env =? 0) eqn:E; cbn; rewrite E; [reflexivity|].
    apply Z.eqb_neq in E. repeat split. exact E.
  - intros rectangle_buffer. rewrite create_rectangle_vertex_array_object_run. cbv zeta.
    destruct (gen_vertex_array env =? 0) eqn:E; cbn; rewrite E; [reflexivity|].
    apply Z.eqb_neq in E. repeat split. exact E.
  - intros source shader_type. rewrite create_shader_run. cbv zeta.
    unfold shader_calls.
    destruct (created_shader env shader_type =? 0) eqn:E; [cbn; rewrite E; reflexivity|].
    destruct (compile_status env (created_shader env shader_type) source =? GL_FALSE);
      settle_names; [reflexivity|].
    apply Z.eqb_neq in E. repeat split. exact E.
  - intros vertex_shader_source fragment_shader_source.
    pose proof (create_shader_program_balanced env vertex_shader_source
                  fragment_shader_source live) as Hbal.
    pose proof (create_shader_program_outcome env vertex_shader_source
                  fragment_shader_source) as Hout.
    destruct (create_shader_program env vertex_shader_source fragment_shader_source)
      as [outcome t]. cbn [fst snd] in *. subst outcome.
    destruct (program_failure env vertex_shader_source fragment_shader_source) eqn:Ef;
      [exact Hbal|].
    destruct (program_failure_none _ _ _ Ef) as (Hp & _).
    repeat split; [exact Hp | exact Hbal].
Qed.

(** ** The end of the loop *)

Lemma polls_draw_nothing (pending : list SDL_Event) :
  List.filter is_glDrawArrays
    (map (fun event => SDL_PollEvent (Some event)) pending ++ [SDL_PollEvent None]) = [].
Proof. induction pending as [|event pending IH]; [reflexivity | exact IH]. Qed.

Lemma iteration_draws_once (shader_program vertex_array_object : GLuint)
    (pending : list SDL_Event) (s : loop_state) :
  List.filter is_glDrawArrays
    (snd (iteration shader_program vertex_array_object pending s))
  = [glDrawArrays GL_TRIANGLES 0 6].
Proof.
  rewrite iteration_run. cbn [snd]. rewrite List.filter_app, polls_draw_nothing.
  reflexivity.
Qed.

Lemma run_loop_running (shader_program vertex_array_object : GLuint)
    (pending : list SDL_Event) (frames : list (list SDL_Event)) (s : loop_state) :
  running s = true ->
  run_loop shader_program vertex_array_object (pending :: frames) s =
    (s' <- iteration shader_program vertex_array_object pending s ;;
     run_loop shader_program vertex_array_object frames s').
Proof. intros Hs. cbn [run_loop]. rewrite Hs. reflexivity. Qed.

(** X8.  When the loop is running and the first iteration that meets a quit
    event is the one after the iterations of [before], the loop returns at
    the end of that iteration with [running] false; the events of later
    iterations are never polled (the result is the same without them); and
    exactly one [glDrawArrays] has been issued per iteration run, the
    quitting one included. *)
Theorem loop_stops_at_first_quit (shader_program vertex_array_object : GLuint)
    (before : list (list SDL_Event)) (quitting : list SDL_Event)
    (later : list (list SDL_Event)) (s : loop_state) :
  running s = true ->
  quits before = false ->
  existsb is_quit quitting = true ->
  let result :=
    run_loop shader_program vertex_array_object (before ++ quitting :: later) s in
  result = run_loop shader_program vertex_array_object (before ++ [quitting]) s
  /\ (exists s', fst result = Normal s' /\ running s' = false)
  /\ length (List.filter is_glDrawArrays (snd result)) = S (length before).
Proof.
  cbv zeta. revert s. induction before as [|pending before IH]; intros s Hs Hb Hq.
  - cbn [app length]. rewrite !run_loop_running by exact Hs.
    rewrite !iteration_run. cbn [bind].
    assert (Hr : running (handle_events quitting s) = false)
      by (rewrite handle_events_running, Hs, Hq; reflexivity).
    rewrite !run_loop_not_running by exact Hr.
    cbn [ret fst snd]. split; [reflexivity|]. split; [eauto|].
    rewrite app_nil_r.
    pose proof (iteration_draws_once shader_program vertex_array_object quitting s) as Hd.
    rewrite iteration_run in Hd. cbn [snd] in Hd. rewrite Hd. reflexivity.
  - cbn [quits existsb] in Hb. apply orb_false_iff in Hb. destruct Hb as [Hp Hb].
    cbn [app length]. rewrite !run_loop_running by exact Hs.
    pose proof (iteration_draws_once shader_program vertex_array_object pending s) as Hd.
    rewrite iteration_run in Hd |- *. cbn [snd] in Hd. cbn [bind].
    assert (Hr : running (handle_events pending s) = true)
      by (rewrite handle_events_running, Hs, Hp; reflexivity).
    destruct (IH (handle_events pending s) Hr Hb Hq) as (Heq & (s' & Hs' & Hrun) & Hn).
    rewrite <- Heq.
    destruct (run_loop shader_program vertex_array_object
                (before ++ quitting :: later) (handle_events pending s)) as [r t].
    cbn [fst snd] in *. split; [reflexivity|]. split; [eauto|].
    rewrite List.filter_app, Hd, length_app, Hn. reflexivity.
Qed.

Lemma loop_stops_at_first_quit_witness :
  let result :=
    run_loop 5 2 ([[SDL_KEYDOWN SDL_SCANCODE_W]] ++ [SDL_QUIT] :: [[SDL_KEYDOWN SDL_SCANCODE_Z]])
      first_state in
  running first_state = true
  /\ quits [[SDL_KEYDOWN SDL_SCANCODE_W]] = false
  /\ existsb is_quit [SDL_QUIT] = true
  /\ result = run_loop 5 2 ([[SDL_KEYDOWN SDL_SCANCODE_W]] ++ [[SDL_QUIT]]) first_state
  /\ length (List.filter is_glDrawArrays (snd result)) = 2%nat.
Proof.
  cbv zeta.
  assert (H1 : running first_state = true) by reflexivity.
  assert (H2 : quits [[SDL_KEYDOWN SDL_SCANCODE_W]] = false) by reflexivity.
  assert (H3 : existsb is_quit [SDL_QUIT] = true) by reflexivity.
  split; [exact H1|]. split; [exact H2|]. split; [exact H3|].
  destruct (loop_stops_at_first_quit 5 2 [[SDL_KEYDOWN SDL_SCANCODE_W]] [SDL_QUIT]
              [[SDL_KEYDOWN SDL_SCANCODE_Z]] first_state H1 H2 H3)
    as (Heq & _ & Hn).
  split; [exact Heq | exact Hn].
Defined.

(** ** Keys without a meaning *)

(** X9.  A key-down event whose scancode is none of W, S, A, D, Z, X, R, E
    changes nothing: neither the view nor the state of the loop. *)
Theorem other_keys_change_nothing (scancode : SDL_Scancode) (v : view) :
  ~ In scancode bound_keys ->
  key_down scancode v = v
  /\ forall s, handle_event (SDL_KEYDOWN scancode) s = s.
Proof.
  intros Hother.
  assert (Hkey : key_down scancode v = v /\ forall v', key_down scancode v' = v').
  { assert (H : forall k, In k bound_keys -> (scancode =? k) = false).
    { intros k Hk. apply Z.eqb_neq. intros ->. exact (Hother Hk). }
    assert (Hall : forall v', key_down scancode v' = v').
    { intros [n sc vx vy]. unfold key_down. cbn [max_iterations scale x y].
      rewrite !H by (unfold bound_keys; cbn [In]; tauto). reflexivity. }
    split; [apply Hall | exact Hall]. }
  destruct Hkey as [Hv Hall]. split; [exact Hv|].
  intros [v' r]. cbn [handle_event the_view running]. rewrite Hall. reflexivity.
Qed.

Lemma other_keys_change_nothing_witness :
  ~ In 44 bound_keys
  /\ key_down 44 initial_view = initial_view.
Proof.
  assert (H : ~ In 44 bound_keys).
  { unfold bound_keys. cbn [In]. intros Hin.
    repeat (destruct Hin as [Hin|Hin]; [discriminate Hin|]). exact Hin. }
  split; [exact H|].
  exact (proj1 (other_keys_change_nothing 44 initial_view H)).
Defined.

(** ** Moves, again *)

(** X10.  The move constructor, applied to a handle that owns a name other
    than 0: the new object owns the name (its destructor makes the one
    release call on it), the source is left with the name 0 and its
    destructor never releases the transferred name, whatever the library
    leaves in its deleter; no other object in store is touched. *)
Theorem move_construct_transfers (lib : function_library)
    (objs : gmap address GLobject) (this globject : address)
    (g : GLobject) (f : callable) :
  this <> globject ->
  objs !! globject = Some g ->
  deleter g = Some f ->
  index g <> 0 ->
  exists objs' new old,
    move_construct lib this globject objs = Some objs'
    /\ objs' !! this = Some new
    /\ objs' !! globject = Some old
    /\ destroy new = (Normal tt, [release_call f (index g)])
    /\ index old = 0
    /\ releases_of (index g) (snd (destroy old)) = 0%nat
    /\ (forall p, p <> this -> p <> globject -> objs' !! p = objs !! p).
Proof.
  intros Hne Hg Hf Hidx.
  destruct (move_construct_zeroes_source lib objs this globject g Hne Hg)
    as (objs' & Hm & Hnew & Hold).
  exists objs', g, {| index := 0; deleter := after_move_construct lib (deleter g) |}.
  split; [exact Hm|]. split; [exact Hnew|]. split; [exact Hold|].
  split; [unfold destroy; rewrite Hf; reflexivity|].
  split; [reflexivity|].
  split.
  - unfold destroy, releases_of. cbn [index deleter].
    destruct (after_move_construct lib (deleter g)) as [f'|]; [|reflexivity].
    cbn [invoke call noexcept snd List.filter].
    rewrite is_release_of_release_call.
    assert (E : (0 =? index g) = false) by (apply Z.eqb_neq; congruence).
    rewrite E. reflexivity.
  - intros p Hp1 Hp2. unfold move_construct in Hm. rewrite Hg in Hm.
    injection Hm as <-.
    rewrite lookup_alter_ne by congruence.
    rewrite !lookup_insert_ne by congruence. reflexivity.
Qed.

Lemma move_construct_transfers_witness :
  let objs : gmap address GLobject := <[1%nat := GLobject_new 7 (Some delete_shader)]> ∅ in
  0%nat <> 1%nat
  /\ objs !! 1%nat = Some (GLobject_new 7 (Some delete_shader))
  /\ exists objs' new old,
       move_construct emptying 0%nat 1%nat objs = Some objs'
       /\ objs' !! 0%nat = Some new
       /\ objs' !! 1%nat = Some old
       /\ destroy new = (Normal tt, [glDeleteShader 7])
       /\ index old = 0.
Proof.
  cbv zeta.
  assert (Hne : 0%nat <> 1%nat) by lia.
  assert (Hg : (<[1%nat := GLobject_new 7 (Some delete_shader)]> ∅
                : gmap address GLobject) !! 1%nat
               = Some (GLobject_new 7 (Some delete_shader))) by reflexivity.
  assert (Hf : deleter (GLobject_new 7 (Some delete_shader)) = Some delete_shader)
    by reflexivity.
  assert (Hidx : index (GLobject_new 7 (Some delete_shader)) <> 0) by discriminate.
  split; [exact Hne|]. split; [exact Hg|].
  destruct (move_construct_transfers emptying _ 0%nat 1%nat _ _ Hne Hg Hf Hidx)
    as (objs' & new & old & Hm & Hn & Ho & Hd & Hi & _).
  exists objs', new, old. repeat (split; [assumption|]). exact Hi.
Defined.

(** X11.  Move assignment, when it is defined (both objects exist), touches
    no object but the two it is given and neither creates nor removes an
    object; assigning an object to itself changes nothing at all. *)
Theorem move_assign_touches_two_objects (lib : function_library)
    (objs objs' : gmap address GLobject) (this globject : address) :
  move_assign lib this globject objs = Some objs' ->
  (forall p, p <> this -> p <> globject -> objs' !! p = objs !! p)
  /\ (forall p, is_Some (objs' !! p) <-> is_Some (objs !! p))
  /\ (this = globject -> objs' = objs).
Proof.
  unfold move_assign. intros Hm.
  destruct (decide (this = globject)) as [E|Hne].
  - injection Hm as <-. repeat split; auto.
  - destruct (objs !! this) as [a|] eqn:Ha; [|discriminate].
    destruct (objs !! globject) as [g|] eqn:Hg; [|discriminate].
    injection Hm as <-. split; [|split].
    + intros p Hp1 Hp2. rewrite !lookup_insert_ne by congruence. reflexivity.
    + intros p. destruct (decide (p = globject)) as [->|Hp2].
      * rewrite lookup_insert_eq, Hg. split; eauto.
      * rewrite lookup_insert_ne by congruence.
        destruct (decide (p = this)) as [->|Hp1].
        -- rewrite !lookup_insert_eq, Ha. split; eauto.
        -- rewrite !lookup_insert_ne by congruence. reflexivity.
    + intros E. contradiction.
Qed.

Lemma move_assign_touches_two_objects_witness :
  let objs : gmap address GLobject :=
    <[2%nat := GLobject_new 3 (Some delete_shader)]>
      (<[1%nat := GLobject_new 2 (Some delete_buffer)]>
         (<[0%nat := GLobject_new 1 (Some delete_buffer)]> ∅)) in
  let objs' : gmap address GLobject :=
    <[2%nat := GLobject_new 3 (Some delete_shader)]>
      (<[1%nat := GLobject_new 2 None]>
         (<[0%nat := GLobject_new 2 (Some delete_buffer)]> ∅)) in
  move_assign emptying 0%nat 1%nat objs = Some objs'
  /\ objs' !! 2%nat = objs !! 2%nat.
Proof.
  cbv zeta.
  assert (H : move_assign emptying 0%nat 1%nat
                (<[2%nat := GLobject_new 3 (Some delete_shader)]>
                   (<[1%nat := GLobject_new 2 (Some delete_buffer)]>
                      (<[0%nat := GLobject_new 1 (Some delete_buffer)]> ∅)))
              = Some (<[2%nat := GLobject_new 3 (Some delete_shader)]>
                        (<[1%nat := GLobject_new 2 None]>
                           (<[0%nat := GLobject_new 2 (Some delete_buffer)]> ∅))))
    by (vm_compute; reflexivity).
  split; [exact H|].
  apply (proj1 (move_assign_touches_two_objects emptying _ _ 0%nat 1%nat H)); lia.
Defined.

(** ** A vertex shader that cannot be built *)

(** X12.  When the program object exists and the vertex shader cannot be
    built (it is not created, or its source does not compile),
    [create_shader_program] throws the exception of [create_shader]; its
    calls are the creation of the program, the calls of that
    [create_shader], and the deletion of the program.  The fragment source
    plays no part: no fragment shader is created. *)
Theorem vertex_shader_failure_ends_the_factory (env : environment)
    (vertex_shader_source : string) :
  created_program env <> 0 ->
  shader_ok env vertex_shader_source GL_VERTEX_SHADER = false ->
  exists e,
    fst (create_shader env vertex_shader_source GL_VERTEX_SHADER) = Thrown e
    /\ forall fragment_shader_source,
         create_shader_program env vertex_shader_source fragment_shader_source =
           (Thrown e,
            [glCreateProgram (created_program env)]
            ++ snd (create_shader env vertex_shader_source GL_VERTEX_SHADER)
            ++ [glDeleteProgram (created_program env)]).
Proof.
  intros Hp Hv. apply Z.eqb_neq in Hp.
  assert (He : exists e,
             fst (create_shader env vertex_shader_source GL_VERTEX_SHADER) = Thrown e).
  { rewrite create_shader_run. cbv zeta. unfold shader_ok in Hv.
    destruct (created_shader env GL_VERTEX_SHADER =? 0); [cbn; eauto|].
    destruct (compile_status env (created_shader env GL_VERTEX_SHADER)
                vertex_shader_source =? GL_FALSE); [cbn; eauto | discriminate Hv]. }
  destruct He as [e He]. exists e. split; [exact He|].
  intros fragment_shader_source.
  rewrite create_shader_program_calls. cbv zeta. rewrite Hp, Hv, He. reflexivity.
Qed.

Lemma vertex_shader_failure_ends_the_factory_witness :
  let env :=
    {| init_result := 0; window := true; gl_context := true; error_text := "";
       files := ∅; gen_buffer := 1; gen_vertex_array := 2;
       created_shader := fun _ => 3; compile_status := fun _ _ => GL_FALSE;
       created_program := 5; link_status := GL_TRUE; events := [] |} in
  created_program env <> 0
  /\ shader_ok env "void" GL_VERTEX_SHADER = false
  /\ forall fragment_shader_source,
       create_shader_program env "void" fragment_shader_source =
         (Thrown (runtime_error "shader compilation error"),
          [ glCreateProgram 5; glCreateShader GL_VERTEX_SHADER 3;
            glShaderSource 3 1 "void"; glCompileShader 3;
            glGetShaderiv 3 GL_COMPILE_STATUS GL_FALSE; glDeleteShader 3;
            glDeleteProgram 5 ]).
Proof.
  cbv zeta.
  set (env := {| init_result := 0; window := true; gl_context := true;
                 error_text := ""; files := ∅; gen_buffer := 1;
                 gen_vertex_array := 2; created_shader := fun _ => 3;
                 compile_status := fun _ _ => GL_FALSE; created_program := 5;
                 link_status := GL_TRUE; events := [] |}).
  assert (Hp : created_program env <> 0) by discriminate.
  assert (Hv : shader_ok env "void" GL_VERTEX_SHADER = false) by reflexivity.
  split; [exact Hp|]. split; [exact Hv|].
  destruct (vertex_shader_failure_ends_the_factory env "void" Hp Hv) as (e & He & Hall).
  intros fragment_shader_source. rewrite Hall.
  cbn in He. injection He as <-. reflexivity.
Defined.

(** ** The sources of the shaders *)

Lemma filter_forallb_negb {A} (p : A -> bool) (l : list A) :
  forallb (fun c => negb (p c)) l = true -> List.filter p l = [].
Proof.
  intros H. apply filter_none. intros c Hc.
  rewrite forallb_forall in H. apply negb_true_iff. apply H. exact Hc.
Qed.

Lemma run_loop_no_glShaderSource (shader_program vertex_array_object : GLuint)
    (frames : list (list SDL_Event)) (s : loop_state) :
  List.filter is_glShaderSource
    (snd (run_loop shader_program vertex_array_object frames s)) = [].
Proof.
  apply filter_forallb_negb.
  apply (run_loop_forall_simple (fun c => negb (is_glShaderSource c))); reflexivity.
Qed.

Lemma c_str_without_nul (s : string) :
  has_nul s = false -> c_str s = s.
Proof.
  induction s as [|c s IH]; [reflexivity|].
  cbn [has_nul c_str]. intros H. apply orb_false_iff in H. destruct H as [Hc Hs].
  rewrite Hc, (IH Hs). reflexivity.
Qed.

Lemma c_str_is_a_prefix (s : string) :
  has_nul (c_str s) = false
  /\ exists rest, s = String.append (c_str s) rest.
Proof.
  induction s as [|c s [IHn [rest IHr]]].
  - split; [reflexivity | exists EmptyString; reflexivity].
  - cbn [c_str]. destruct (Ascii.eqb c Ascii.zero) eqn:Hc.
    + split; [reflexivity | exists (String c s); reflexivity].
    + split.
      * cbn [has_nul]. rewrite Hc, IHn. reflexivity.
      * exists rest.
        change (String c s = String c (String.append (c_str s) rest)).
        rewrite <- IHr. reflexivity.
Qed.

(** X13.  In a run without failure, [main] makes two [glShaderSource]
    calls, none of them in the loop: the vertex shader is given the
    contents of [res/mandelbrot_shader.vs] and the fragment shader those of
    [res/mandelbrot_shader.fs], in that order, each as the C string of what
    was read: the bytes before the first NUL, which is all of the file
    when the file holds no NUL. *)
Theorem shader_sources_come_from_the_files (env : environment)
    (vertex_shader_source fragment_shader_source : string) :
  failure env = None ->
  files env !! "res/mandelbrot_shader.vs" = Some vertex_shader_source ->
  files env !! "res/mandelbrot_shader.fs" = Some fragment_shader_source ->
  List.filter is_glShaderSource (calls (main env)) =
    [ glShaderSource (created_shader env GL_VERTEX_SHADER) 1
        (c_str vertex_shader_source);
      glShaderSource (created_shader env GL_FRAGMENT_SHADER) 1
        (c_str fragment_shader_source) ]
  /\ (has_nul vertex_shader_source = false ->
      c_str vertex_shader_source = vertex_shader_source)
  /\ (has_nul fragment_shader_source = false ->
      c_str fragment_shader_source = fragment_shader_source)
  /\ (exists rest, vertex_shader_source
                   = String.append (c_str vertex_shader_source) rest)
  /\ (exists rest, fragment_shader_source
                   = String.append (c_str fragment_shader_source) rest).
Proof.
  intros Hfail Hvs Hfs.
  split; [|split; [apply c_str_without_nul|split; [apply c_str_without_nul|
           split; apply c_str_is_a_prefix]]].
  unfold failure, resource_failure in Hfail. revert Hfail.
  rewrite Hvs, Hfs.
  unfold main. destruct (init_result env >=? 0); [|discriminate].
  destruct (window env); [|discriminate].
  destruct (gl_context env); [|discriminate].
  rewrite try_block_run. cbv zeta. rewrite Hvs, Hfs.
  destruct (gen_buffer env =? 0); [discriminate|].
  destruct (gen_vertex_array env =? 0); [discriminate|].
  intros Hprogram. rewrite Hprogram.
  destruct (program_failure_none _ _ _ Hprogram) as (Hp & Hv & Hf & Hl).
  rewrite (create_shader_program_run env _ _ Hp Hv Hf). cbv zeta. rewrite Hl.
  unfold buffer_calls, vertex_array_calls, link_calls, shader_calls.
  destruct (quits (events env)); cbn [calls snd];
    rewrite !List.filter_app, run_loop_no_glShaderSource; reflexivity.
Qed.

Lemma shader_sources_come_from_the_files_witness :
  let with_nul := String.append "vertex" (String Ascii.zero "after the NUL") in
  let env :=
    {| init_result := 0; window := true; gl_context := true; error_text := "";
       files := <["res/mandelbrot_shader.vs" := with_nul]>
                  (<["res/mandelbrot_shader.fs" := "fragment"]> ∅);
       gen_buffer := 1; gen_vertex_array := 2;
       created_shader := fun shader_type =>
                           if shader_type =? GL_VERTEX_SHADER then 3 else 4;
       compile_status := fun _ _ => GL_TRUE;
       created_program := 5; link_status := GL_TRUE;
       events := [[SDL_QUIT]] |} in
  failure env = None
  /\ files env !! "res/mandelbrot_shader.vs" = Some with_nul
  /\ files env !! "res/mandelbrot_shader.fs" = Some "fragment"
  /\ List.filter is_glShaderSource (calls (main env)) =
       [glShaderSource 3 1 "vertex"; glShaderSource 4 1 "fragment"].
Proof.
  cbv zeta.
  set (with_nul := String.append "vertex" (String Ascii.zero "after the NUL")).
  set (env := {| init_result := 0; window := true; gl_context := true;
                 error_text := "";
                 files := <["res/mandelbrot_shader.vs" := with_nul]>
                            (<["res/mandelbrot_shader.fs" := "fragment"]> ∅);
                 gen_buffer := 1; gen_vertex_array := 2;
                 created_shader := fun shader_type =>
                                     if shader_type =? GL_VERTEX_SHADER then 3 else 4;
                 compile_status := fun _ _ => GL_TRUE;
                 created_program := 5; link_status := GL_TRUE;
                 events := [[SDL_QUIT]] |}).
  assert (H1 : failure env = None) by reflexivity.
  assert (H2 : files env !! "res/mandelbrot_shader.vs" = Some with_nul) by reflexivity.
  assert (H3 : files env !! "res/mandelbrot_shader.fs" = Some "fragment") by reflexivity.
  split; [exact H1|]. split; [exact H2|]. split; [exact H3|].
  exact (proj1 (shader_sources_come_from_the_files env _ _ H1 H2 H3)).
Defined.

(** ** The view at the end of the loop *)

Lemma scancodes_of_app (pending pending' : list SDL_Event) :
  scancodes_of (pending ++ pending') = scancodes_of pending ++ scancodes_of pending'.
Proof.
  induction pending as [|event pending IH]; [reflexivity|].
  destruct event; cbn [app scancodes_of]; rewrite IH; reflexivity.
Qed.

Lemma key_downs_app (scancodes scancodes' : list SDL_Scancode) (v : view) :
  key_downs (scancodes ++ scancodes') v = key_downs scancodes' (key_downs scancodes v).
Proof. unfold key_downs. apply fold_left_app. Qed.

(** X14.  When the loop returns, the view is the initial one updated by all
    the key-down events polled up to the end of the quitting iteration, in
    the order they were polled: how the events are spread over the
    iterations makes no difference, other events are skipped, and the keys
    that follow the quit event in its iteration still count. *)
Theorem final_view_folds_all_keys (shader_program vertex_array_object : GLuint)
    (before : list (list SDL_Event)) (quitting : list SDL_Event)
    (later : list (list SDL_Event)) (s : loop_state) :
  running s = true ->
  quits before = false ->
  existsb is_quit quitting = true ->
  exists s',
    fst (run_loop shader_program vertex_array_object (before ++ quitting :: later) s)
      = Normal s'
    /\ the_view s'
       = key_downs (scancodes_of (concat (before ++ [quitting]))) (the_view s).
Proof.
  revert s. induction before as [|pending before IH]; intros s Hs Hb Hq.
  - cbn [app concat]. rewrite app_nil_r. rewrite run_loop_running by exact Hs.
    rewrite iteration_run. cbn [bind].
    rewrite run_loop_not_running
      by (rewrite handle_events_running, Hs, Hq; reflexivity).
    cbn [ret fst]. eexists. split; [reflexivity|]. apply handle_events_view.
  - cbn [quits existsb] in Hb. apply orb_false_iff in Hb. destruct Hb as [Hp Hb].
    cbn [app concat]. rewrite run_loop_running by exact Hs.
    rewrite iteration_run. cbn [bind].
    assert (Hr : running (handle_events pending s) = true)
      by (rewrite handle_events_running, Hs, Hp; reflexivity).
    destruct (IH (handle_events pending s) Hr Hb Hq) as (s' & Hs' & Hv).
    destruct (run_loop shader_program vertex_array_object
                (before ++ quitting :: later) (handle_events pending s)) as [r t].
    cbn [fst] in *. exists s'. split; [exact Hs'|].
    rewrite Hv, handle_events_view, scancodes_of_app, key_downs_app. reflexivity.
Qed.

Lemma final_view_folds_all_keys_witness :
  running first_state = true
  /\ quits [[SDL_KEYDOWN SDL_SCANCODE_R]; [OtherEvent 1024]] = false
  /\ existsb is_quit [SDL_QUIT; SDL_KEYDOWN SDL_SCANCODE_R] = true
  /\ exists s',
       fst (run_loop 5 2
              ([[SDL_KEYDOWN SDL_SCANCODE_R]; [OtherEvent 1024]]
               ++ [SDL_QUIT; SDL_KEYDOWN SDL_SCANCODE_R] :: [[SDL_KEYDOWN SDL_SCANCODE_R]])
              first_state) = Normal s'
       /\ max_iterations (the_view s') = 32.
Proof.
  assert (H1 : running first_state = true) by reflexivity.
  assert (H2 : quits [[SDL_KEYDOWN SDL_SCANCODE_R]; [OtherEvent 1024]] = false)
    by reflexivity.
  assert (H3 : existsb is_quit [SDL_QUIT; SDL_KEYDOWN SDL_SCANCODE_R] = true)
    by reflexivity.
  split; [exact H1|]. split; [exact H2|]. split; [exact H3|].
  destruct (final_view_folds_all_keys 5 2
              [[SDL_KEYDOWN SDL_SCANCODE_R]; [OtherEvent 1024]]
              [SDL_QUIT; SDL_KEYDOWN SDL_SCANCODE_R]
              [[SDL_KEYDOWN SDL_SCANCODE_R]] first_state H1 H2 H3)
    as (s' & Hs' & Hv).
  exists s'. split; [exact Hs'|]. rewrite Hv. reflexivity.
Defined.

(** ** Increase, then decrease *)

(** X15.  On a count in the range of [unsigned]: increase then decrease
    (R, E) gives the count back, except at [2^32 - 1], where it gives 0;
    decrease then increase (E, R) gives the count back, except at 0, where
    it gives 1. *)
Theorem increase_and_decrease (v : view) :
  unsigned_range (max_iterations v) ->
  max_iterations (key_downs [SDL_SCANCODE_R; SDL_SCANCODE_E] v)
    = (if max_iterations v =? 2 ^ 32 - 1 then 0 else max_iterations v)
  /\ max_iterations (key_downs [SDL_SCANCODE_E; SDL_SCANCODE_R] v)
    = (if max_iterations v =? 0 then 1 else max_iterations v).
Proof.
  destruct v as [n sc vx vy]. unfold unsigned_range. cbn [max_iterations].
  intros Hn. unfold key_downs. cbn [fold_left].
  change (max_iterations (key_down SDL_SCANCODE_E
            (key_down SDL_SCANCODE_R
               {| max_iterations := n; scale := sc; x := vx; y := vy |})))
    with (if wrap32 (n + 1) >? 0 then wrap32 (wrap32 (n + 1) - 1) else wrap32 (n + 1)).
  change (max_iterations (key_down SDL_SCANCODE_R
            (key_down SDL_SCANCODE_E
               {| max_iterations := n; scale := sc; x := vx; y := vy |})))
    with (wrap32 ((if n >? 0 then wrap32 (n - 1) else n) + 1)).
  unfold wrap32. split.
  - destruct (n =? 2 ^ 32 - 1) eqn:E.
    + apply Z.eqb_eq in E. subst n.
      replace (2 ^ 32 - 1 + 1) with (2 ^ 32) by lia.
      rewrite Z.mod_same by lia. reflexivity.
    + apply Z.eqb_neq in E. rewrite (Z.mod_small (n + 1)) by lia.
      destruct (n + 1 >? 0) eqn:G; [|rewrite Z.gtb_ltb in G; apply Z.ltb_ge in G; lia].
      replace (n + 1 - 1) with n by lia. apply Z.mod_small. lia.
  - destruct (n =? 0) eqn:E.
    + apply Z.eqb_eq in E. subst n. reflexivity.
    + apply Z.eqb_neq in E.
      destruct (n >? 0) eqn:G.
      * rewrite (Z.mod_small (n - 1)) by lia.
        replace (n - 1 + 1) with n by lia. apply Z.mod_small. lia.
      * rewrite Z.gtb_ltb in G. apply Z.ltb_ge in G. lia.
Qed.

Lemma increase_and_decrease_witness :
  let top := {| max_iterations := 2 ^ 32 - 1; scale := Float32.one;
                x := Float32.zero; y := Float32.zero |} in
  unsigned_range (max_iterations top)
  /\ max_iterations (key_downs [SDL_SCANCODE_R; SDL_SCANCODE_E] top) = 0
  /\ max_iterations (key_downs [SDL_SCANCODE_E; SDL_SCANCODE_R] top) = 2 ^ 32 - 1.
Proof.
  cbv zeta.
  assert (H : unsigned_range
                (max_iterations
                   {| max_iterations := 2 ^ 32 - 1; scale := Float32.one;
                      x := Float32.zero; y := Float32.zero |}))
    by (unfold unsigned_range; cbn [max_iterations]; lia).
  split; [exact H|].
  exact (increase_and_decrease _ H).
Defined.
